(** * next-firebase-auth: session resolution and redirect policy

    A shallow embedding of [src/withAuthUserTokenSSR.js] (the request
    orchestrator with its inlined redirect engine) and of the exported,
    generator-based redirect engine (the listing that exports
    [processRedirect]).  JavaScript values are a small inductive type,
    objects are finite maps from property names to values, and the code's
    effects (thrown errors, calls into collaborators) are threaded through
    a writer/error monad whose log records every call made to a URL
    function, to the token verifier and to the page's own
    [getServerSideProps]. *)

From stdpp Require Import gmap strings fin_maps.
From Stdlib Require Import ZArith.

Local Open Scope string_scope.
Local Set Warnings "-register-all".

(** ** JavaScript values *)

(** Plain data, as a [getServerSideProps] result, a cookie's parsed JSON
    or a configuration entry holds it.  Numbers are restricted to
    integers.  Function values occur in one place only, the URL options,
    and are kept apart (see [Url]). *)
Inductive JsVal : Type :=
| JUndefined
| JNull
| JBool (b : bool)
| JNum (z : Z)
| JStr (s : string)
| JObj (fields : gmap string JsVal).

(** ToBoolean. *)
Definition truthy (v : JsVal) : bool :=
  match v with
  | JUndefined | JNull => false
  | JBool b => b
  | JNum z => negb (z =? 0)%Z
  | JStr s => negb (String.eqb s "")
  | JObj _ => true
  end.

(** [a || b] *)
Definition js_or (a b : JsVal) : JsVal := if truthy a then a else b.

(** An [appPageURL] / [authPageURL] option: a plain value (a string when
    well-typed, null or undefined when unset) or a function, given by a
    handle whose behaviour the host supplies ([Host.callFn]). *)
Inductive Url : Type :=
| UrlVal (v : JsVal)
| UrlFn (f : nat).

Definition url_truthy (u : Url) : bool :=
  match u with
  | UrlVal v => truthy v
  | UrlFn _ => true
  end.

Definition url_or (a b : Url) : Url := if url_truthy a then a else b.

(** Thrown values.  The four configuration errors are the [new Error(...)]
    of the redirect helpers, named after the option their message names:
    - [AuthPageURLMustBeSet]: When whenUnauthed is set to
      AuthAction.REDIRECT_TO_LOGIN, authPageURL must be set.
    - [AuthPageURLEmpty]: The authPageURL must be set to a non-empty string
      or resolve to a non-empty string
    - [AppPageURLMustBeSet], [AppPageURLEmpty]: the same for whenAuthed,
      AuthAction.REDIRECT_TO_APP and appPageURL. *)
Inductive ConfigError : Type :=
| AuthPageURLMustBeSet
| AuthPageURLEmpty
| AppPageURLMustBeSet
| AppPageURLEmpty.

Inductive Exn : Type :=
| Error (e : ConfigError)
| TypeError (what : string)
| SyntaxError
| Rejected (reason : JsVal).

Inductive Outcome (A : Type) : Type :=
| Return (a : A)
| Throw (e : Exn).
Arguments Return {A} a.
Arguments Throw {A} e.

(** ** The request's entities *)

(** The AuthUser (the spec's Session): the code reads [AuthUser.id] and
    calls [AuthUser.serialize()]; [serialize] is that call's value. *)
Module AuthUser.
Record t : Type := mk { id : JsVal; serialize : JsVal }.
End AuthUser.

(** The Next.js context: [req], [res], and the [AuthUser] slot the
    orchestrator assigns before it calls the page's hook. *)
Module Ctx.
Record t : Type :=
  mk { req : JsVal; res : JsVal; AuthUser : option AuthUser.t }.
End Ctx.

(** Modelled from the spec: the constants of [src/AuthAction], which is
    not among the sources; section 6 gives [whenAuthed] the values render
    and redirect-to-app and [whenUnauthed] the values render and
    redirect-to-login.  The code only compares them with [===]. *)
Inductive AuthAction : Type := RENDER | REDIRECT_TO_LOGIN | REDIRECT_TO_APP.

Definition AuthAction_eqb (a b : AuthAction) : bool :=
  match a, b with
  | RENDER, RENDER
  | REDIRECT_TO_LOGIN, REDIRECT_TO_LOGIN
  | REDIRECT_TO_APP, REDIRECT_TO_APP => true
  | _, _ => false
  end.

(** [getConfig()]: the process-wide defaults. *)
Module Config.
Record cookieOptions : Type :=
  mkCookies { keys : JsVal; secure : JsVal; signed : JsVal }.
Record t : Type := mk {
  authPageURL : Url;
  appPageURL : Url;
  redirectConfig : JsVal;
  cookies : cookieOptions
}.
End Config.

(** The object [processRedirect] receives. *)
Module Settings.
Record t : Type := mk {
  redirectConfig : JsVal;
  whenAuthed : AuthAction;
  whenUnauthed : AuthAction;
  appPageURL : Url;
  authPageURL : Url;
  ctx : Ctx.t;
  AuthUser : AuthUser.t
}.
End Settings.

(** ** Effects *)

(** What the code calls outside itself, in call order. *)
Inductive Event : Type :=
| CallURL (f : nat) (ctx : Ctx.t) (user : AuthUser.t)
| CallVerifyIdToken (idToken refreshToken : JsVal)
| CallHook (ctx : Ctx.t).

Definition M (A : Type) : Type := (list Event * Outcome A)%type.

Definition ret {A} (a : A) : M A := ([], Return a).
Definition throw {A} (e : Exn) : M A := ([], Throw e).
Definition emit (ev : Event) : M unit := ([ev], Return tt).
Definition lift {A} (o : Outcome A) : M A := ([], o).

Definition bind {A B} (m : M A) (k : A -> M B) : M B :=
  match m with
  | (t, Return a) => let '(t', r) := k a in ((t ++ t')%list, r)
  | (t, Throw e) => (t, Throw e)
  end.

Notation "'let*' x ':=' m 'in' k" := (bind m (fun x => k))
  (at level 10, x name, m at level 100, k at level 200).

Definition trace {A} (m : M A) : list Event := fst m.
Definition outcome {A} (m : M A) : Outcome A := snd m.

Definition is_CallHook (ev : Event) : bool :=
  match ev with CallHook _ => true | _ => false end.
Definition is_CallVerifyIdToken (ev : Event) : bool :=
  match ev with CallVerifyIdToken _ _ => true | _ => false end.

(** The collaborators, none of which is among the sources: the behaviour
    of URL functions, [getConfig], [getCookie] with the two cookie names,
    [JSON.parse], [verifyIdToken] and [createAuthUser]. *)
Module Host.
Record t : Type := mk {
  callFn : nat -> Ctx.t -> AuthUser.t -> Outcome JsVal;
  getConfig : Config.t;
  getAuthUserCookieName : string;
  getAuthUserTokensCookieName : string;
  getCookie : string -> JsVal -> JsVal -> Config.cookieOptions -> JsVal;
  JSON_parse : JsVal -> Outcome JsVal;
  verifyIdToken : JsVal -> JsVal -> Outcome AuthUser.t;
  createAuthUser : JsVal -> AuthUser.t
}.
End Host.

(** [o[k]] for the property names this code reads ([props], [notFound],
    [redirect], [idToken], [refreshToken], [authenticatedUser],
    [unauthenticatedUser]): a TypeError on null and undefined, the stored
    value on an object, undefined where the key is missing and on
    primitives, whose prototypes carry none of these names. *)
Definition member (o : JsVal) (k : string) : M JsVal :=
  match o with
  | JUndefined | JNull => throw (TypeError "cannot read properties")
  | JObj m => ret (default JUndefined (m !! k))
  | _ => ret JUndefined
  end.

(** [o[k] = v] in strict mode (the files are ES modules): the property is
    created or replaced on an object; a primitive cannot take one. *)
Definition assign (o : JsVal) (k : string) (v : JsVal) : M JsVal :=
  match o with
  | JObj m => ret (JObj (<[ k := v ]> m))
  | JUndefined | JNull => throw (TypeError "cannot set properties")
  | _ => throw (TypeError "cannot create property")
  end.

(** [{ ...o }]: the own properties of an object; nothing for null,
    undefined, booleans and numbers.  (A string would spread into its
    characters; the orchestrator only spreads values on which it has read
    a truthy member, which are objects.) *)
Definition spread (o : JsVal) : gmap string JsVal :=
  match o with
  | JObj m => m
  | _ => ∅
  end.

(** [u({ ctx, AuthUser })] *)
Definition call (h : Host.t) (u : Url) (ctx : Ctx.t) (user : AuthUser.t)
  : M JsVal :=
  match u with
  | UrlFn n => let* _ := emit (CallURL n ctx user) in
               lift (Host.callFn h n ctx user)
  | UrlVal _ => throw (TypeError "not a function")
  end.

(** [{ redirect: { destination, permanent: false } }] *)
Definition directive (destination : JsVal) : JsVal :=
  JObj {[ "redirect" :=
            JObj (<[ "destination" := destination ]>
                    {[ "permanent" := JBool false ]}) ]}.

(** [{ redirect }] *)
Definition redirectObject (redirect : JsVal) : JsVal :=
  JObj {[ "redirect" := redirect ]}.

(** ** The redirect helpers

    [redirectUnauthenticatedUser] and [redirectAuthenticatedUser] have the
    same text in [withAuthUserTokenSSR.js] (lines 71-127) and in both
    copies of the exported listing; they are embedded once. *)

(** [typeof url === 'string' ? url : url({ ctx, AuthUser })], the
    expression both helpers bind to [destination]. *)
Definition resolveDestination (h : Host.t) (url : Url) (ctx : Ctx.t)
    (user : AuthUser.t) : M JsVal :=
  match url with
  | UrlVal (JStr s) => ret (JStr s)
  | _ => call h url ctx user
  end.

Definition redirectUnauthenticatedUser (h : Host.t)
    (unauthenticatedRedirectURL : Url) (ctx : Ctx.t) (user : AuthUser.t)
  : M JsVal :=
  if negb (url_truthy unauthenticatedRedirectURL)
  then throw (Error AuthPageURLMustBeSet)
  else
    let* destination :=
      resolveDestination h unauthenticatedRedirectURL ctx user in
    if negb (truthy destination)
    then throw (Error AuthPageURLEmpty)
    else ret (directive destination).

Definition redirectAuthenticatedUser (h : Host.t)
    (authenticatedRedirectURL : Url) (ctx : Ctx.t) (user : AuthUser.t)
  : M JsVal :=
  if negb (url_truthy authenticatedRedirectURL)
  then throw (Error AppPageURLMustBeSet)
  else
    let* destination :=
      resolveDestination h authenticatedRedirectURL ctx user in
    if negb (truthy destination)
    then throw (Error AppPageURLEmpty)
    else ret (directive destination).

(** [!AuthUser.id && whenUnauthed === AuthAction.REDIRECT_TO_LOGIN] *)
Definition shouldRedirectUnauthedUser (s : Settings.t) : bool :=
  negb (truthy (AuthUser.id (Settings.AuthUser s)))
  && AuthAction_eqb (Settings.whenUnauthed s) REDIRECT_TO_LOGIN.

(** [AuthUser.id && whenAuthed === AuthAction.REDIRECT_TO_APP], as the
    [if] that tests it sees it. *)
Definition shouldRedirectAuthedUser (s : Settings.t) : bool :=
  truthy (AuthUser.id (Settings.AuthUser s))
  && AuthAction_eqb (Settings.whenAuthed s) REDIRECT_TO_APP.

(** [authPageURL || getConfig().authPageURL] *)
Definition unauthenticatedRedirectURL (h : Host.t) (s : Settings.t) : Url :=
  url_or (Settings.authPageURL s) (Config.authPageURL (Host.getConfig h)).

(** [appPageURL || getConfig().appPageURL] *)
Definition authenticatedRedirectURL (h : Host.t) (s : Settings.t) : Url :=
  url_or (Settings.appPageURL s) (Config.appPageURL (Host.getConfig h)).

(** The statements both versions of [findLegacyRedirect] end with. *)
Definition legacyBranches (h : Host.t) (s : Settings.t) : M JsVal :=
  if shouldRedirectUnauthedUser s
  then redirectUnauthenticatedUser h (unauthenticatedRedirectURL h s)
         (Settings.ctx s) (Settings.AuthUser s)
  else if shouldRedirectAuthedUser s
  then redirectAuthenticatedUser h (authenticatedRedirectURL h s)
         (Settings.ctx s) (Settings.AuthUser s)
  else ret JNull.

(** ** The exported redirect engine (generator-based listing)

    The listing occurs twice among the sources, once with arrow functions
    and once with function declarations; the two agree statement for
    statement, so one embedding serves both. *)
Module Redirects.

(** A generator that yields once: the value of the first [next()] and
    the rest of the body, which the second [next()] runs to its
    [return]. *)
Inductive Generator : Type :=
| Yield (value : Url) (rest : M JsVal).

(** [function* findLegacyRedirect]: the four constants are computed
    without effects up to the [yield]; the branches run after it. *)
Definition findLegacyRedirect (h : Host.t) (s : Settings.t) : Generator :=
  Yield (url_or (unauthenticatedRedirectURL h s) (authenticatedRedirectURL h s))
        (legacyBranches h s).

Definition findRedirectRule (h : Host.t) (s : Settings.t) : M JsVal :=
  let config :=
    js_or (Settings.redirectConfig s)
          (Config.redirectConfig (Host.getConfig h)) in
  if negb (truthy config) then ret JNull
  else
    let* redirect :=
      (if truthy (AuthUser.id (Settings.AuthUser s))
       then member config "authenticatedUser"
       else member config "unauthenticatedUser") in
    ret (redirectObject redirect).

Definition processRedirect (h : Host.t) (redirectSettings : Settings.t)
  : M JsVal :=
  let '(Yield useLegacyRedirect rest) :=
    findLegacyRedirect h redirectSettings in
  if negb (url_truthy useLegacyRedirect)
  then findRedirectRule h redirectSettings
  else rest.

End Redirects.

(** ** [withAuthUserTokenSSR.js] *)
Module SSR.

(** [determineAuthUser({ useToken, res, req, keys, secure, signed })].
    [JSON.parse] may throw; destructuring [idToken] and [refreshToken]
    reads two members of what it returns (or of [{}]). *)
Definition determineAuthUser (h : Host.t) (useToken : JsVal)
    (res req : JsVal) (keys secure signed : JsVal) : M AuthUser.t :=
  if truthy useToken then
    let cookieValStr :=
      Host.getCookie h (Host.getAuthUserTokensCookieName h) req res
        (Config.mkCookies keys secure signed) in
    let* parsed :=
      (if truthy cookieValStr
       then lift (Host.JSON_parse h cookieValStr)
       else ret (JObj ∅)) in
    let* idToken := member parsed "idToken" in
    let* refreshToken := member parsed "refreshToken" in
    if truthy idToken then
      let* _ := emit (CallVerifyIdToken idToken refreshToken) in
      lift (Host.verifyIdToken h idToken refreshToken)
    else ret (Host.createAuthUser h JUndefined)
  else
    let cookieValStr :=
      Host.getCookie h (Host.getAuthUserCookieName h) req res
        (Config.mkCookies keys secure signed) in
    ret (Host.createAuthUser h
           (JObj {[ "serializedAuthUser" := cookieValStr ]})).

(** The file's own [findLegacyRedirect]: the same constants and branches
    as the generator, with no yield between them. *)
Definition findLegacyRedirect (h : Host.t) (s : Settings.t) : M JsVal :=
  legacyBranches h s.

(** The file's own [findRedirectRule]: [config] decides whether a rule is
    looked up, but the lookup reads the call-site [redirectConfig]. *)
Definition findRedirectRule (h : Host.t) (s : Settings.t) : M JsVal :=
  let config :=
    js_or (Settings.redirectConfig s)
          (Config.redirectConfig (Host.getConfig h)) in
  if negb (truthy config) then ret JNull
  else
    let* redirect :=
      (if truthy (AuthUser.id (Settings.AuthUser s))
       then member (Settings.redirectConfig s) "authenticatedUser"
       else member (Settings.redirectConfig s) "unauthenticatedUser") in
    ret (redirectObject redirect).

Definition processRedirect (h : Host.t) (redirectSettings : Settings.t)
  : M JsVal :=
  let* redirectRule := findRedirectRule h redirectSettings in
  if truthy redirectRule then ret redirectRule
  else findLegacyRedirect h redirectSettings.

(** The first argument of [withAuthUserTokenSSR], before defaults; an
    omitted option is [None] or undefined. *)
Record Options : Type := mkOptions {
  whenAuthed : option AuthAction;
  whenUnauthed : option AuthAction;
  appPageURL : Url;
  authPageURL : Url;
  redirectConfig : JsVal
}.

(** A default parameter value replaces undefined only. *)
Definition defaultTo (d v : JsVal) : JsVal :=
  match v with JUndefined => d | _ => v end.

Definition urlDefaultTo (d : JsVal) (u : Url) : Url :=
  match u with UrlVal JUndefined => UrlVal d | _ => u end.

(** The [redirectSettings] the orchestrator builds from its options. *)
Definition settingsOf (o : Options) (ctx : Ctx.t) (user : AuthUser.t)
  : Settings.t :=
  Settings.mk
    (defaultTo JNull (redirectConfig o))
    (default RENDER (whenAuthed o))
    (default RENDER (whenUnauthed o))
    (urlDefaultTo JNull (appPageURL o))
    (urlDefaultTo JNull (authPageURL o))
    ctx user.

(** [{ props: { AuthUserSerialized } }] *)
Definition sessionProps (AuthUserSerialized : JsVal) : JsVal :=
  JObj {[ "props" := JObj {[ "AuthUserSerialized" := AuthUserSerialized ]} ]}.

(** The merge of the hook's result into [returnData] (lines 256-268).
    [returnData = { ...composedProps }] copies the reference to the
    hook's [props] object, so the assignment that follows writes into
    that one object; the value returned is the copy with the updated
    object under [props]. *)
Definition mergeComposedProps (AuthUserSerialized : JsVal)
    (hookResult : JsVal) : M JsVal :=
  let composedProps := js_or hookResult (JObj ∅) in
  if truthy composedProps then
    let* props := member composedProps "props" in
    if truthy props then
      let returnData := spread composedProps in
      let* props' := assign props "AuthUserSerialized" AuthUserSerialized in
      ret (JObj (<[ "props" := props' ]> returnData))
    else
      (* both reads are of a truthy value and cannot throw, so reading
         [redirect] before [||] looks at it changes nothing *)
      let* notFound := member composedProps "notFound" in
      let* redirect := member composedProps "redirect" in
      if truthy notFound || truthy redirect
      then ret (JObj (spread composedProps))
      else ret (sessionProps AuthUserSerialized)
  else ret (sessionProps AuthUserSerialized).

(** [withAuthUserTokenSSR(options, { useToken })(getServerSidePropsFunc)(ctx)].
    [{ useToken, ...ctx, ...getConfig().cookies }] hands the resolver
    [req] and [res] of the context and the three cookie options. *)
Definition withAuthUserTokenSSR (h : Host.t) (o : Options) (useToken : JsVal)
    (getServerSidePropsFunc : option (Ctx.t -> Outcome JsVal)) (ctx : Ctx.t)
  : M JsVal :=
  let cookies := Config.cookies (Host.getConfig h) in
  let* user :=
    determineAuthUser h (defaultTo (JBool true) useToken)
      (Ctx.res ctx) (Ctx.req ctx)
      (Config.keys cookies) (Config.secure cookies) (Config.signed cookies) in
  let AuthUserSerialized := AuthUser.serialize user in
  let* redirect := processRedirect h (settingsOf o ctx user) in
  if truthy redirect then ret redirect
  else
    match getServerSidePropsFunc with
    | Some f =>
        let ctx' := Ctx.mk (Ctx.req ctx) (Ctx.res ctx) (Some user) in
        let* result := (let* _ := emit (CallHook ctx') in lift (f ctx')) in
        mergeComposedProps AuthUserSerialized result
    | None => ret (sessionProps AuthUserSerialized)
    end.

End SSR.

(** ** Notions the statements use *)

(** The key of the declarative rule for a Session's auth state. *)
Definition ruleKey (user : AuthUser.t) : string :=
  if truthy (AuthUser.id user) then "authenticatedUser"
  else "unauthenticatedUser".

(** The declarative rule a configuration object holds for a Session. *)
Definition ruleOf (config : gmap string JsVal) (user : AuthUser.t) : JsVal :=
  default JUndefined (config !! ruleKey user).

(** The legacy URL of either direction is configured, at the call site or
    globally. *)
Definition legacyURLConfigured (h : Host.t) (s : Settings.t) : bool :=
  url_truthy (unauthenticatedRedirectURL h s)
  || url_truthy (authenticatedRedirectURL h s).

(** The declarative configuration in force: call site first, then the
    global default. *)
Definition declarativeConfig (h : Host.t) (s : Settings.t) : JsVal :=
  js_or (Settings.redirectConfig s) (Config.redirectConfig (Host.getConfig h)).

(** A value is a Redirect Directive to [destination]: an object whose
    [redirect] holds exactly [destination] and [permanent: false]. *)
Definition isDirective (v destination : JsVal) : Prop :=
  v = JObj {[ "redirect" :=
                JObj (<[ "destination" := destination ]>
                        {[ "permanent" := JBool false ]}) ]}.

(** URL functions return strings, as the JSDoc of [withAuthUserTokenSSR]
    requires of [appPageURL] and [authPageURL]. *)
Definition urlFunctionsReturnStrings (h : Host.t) : Prop :=
  forall n ctx user v,
    Host.callFn h n ctx user = Return v -> exists str, v = JStr str.

(** The resolver call the orchestrator makes: [useToken] defaulted to
    true, [req] and [res] of the context, the global cookie options. *)
Definition resolveSession (h : Host.t) (useToken : JsVal) (ctx : Ctx.t)
  : M AuthUser.t :=
  let cookies := Config.cookies (Host.getConfig h) in
  SSR.determineAuthUser h (SSR.defaultTo (JBool true) useToken)
    (Ctx.res ctx) (Ctx.req ctx)
    (Config.keys cookies) (Config.secure cookies) (Config.signed cookies).

(** The context after [ctx.AuthUser = AuthUser]. *)
Definition ctxWith (ctx : Ctx.t) (user : AuthUser.t) : Ctx.t :=
  Ctx.mk (Ctx.req ctx) (Ctx.res ctx) (Some user).

(** The request gets past the redirect engine: the resolver returns
    [user] and the engine returns null. *)
Definition reachesHook (h : Host.t) (o : SSR.Options) (useToken : JsVal)
    (ctx : Ctx.t) (user : AuthUser.t) : Prop :=
  outcome (resolveSession h useToken ctx) = Return user
  /\ outcome (SSR.processRedirect h (SSR.settingsOf o ctx user)) = Return JNull.

(** The log holds a call of the page's hook. *)
Definition hookCalled (t : list Event) : bool := existsb is_CallHook t.

(** ** Sample hosts and requests *)
Module Sample.

Definition anonymous : AuthUser.t := AuthUser.mk JNull (JStr "ANON").
Definition alice : AuthUser.t := AuthUser.mk (JStr "alice") (JStr "SESSVAL").
Definition ctx : Ctx.t := Ctx.mk (JStr "req") (JStr "res") None.

Definition noCookieOptions : Config.cookieOptions :=
  Config.mkCookies JUndefined JUndefined JUndefined.

(** Nothing configured globally. *)
Definition unset : Config.t :=
  Config.mk (UrlVal JUndefined) (UrlVal JUndefined) JUndefined noCookieOptions.

Definition quote : string := String (Ascii.ascii_of_nat 34) "".

(** The text of a tokens cookie holding the pair tok / ref. *)
Definition tokensText : string :=
  "{" ++ quote ++ "idToken" ++ quote ++ ":" ++ quote ++ "tok" ++ quote ++ ","
      ++ quote ++ "refreshToken" ++ quote ++ ":" ++ quote ++ "ref" ++ quote
      ++ "}".

(** A host over a global configuration and a cookie jar.  URL function 0
    returns the empty string, 1 returns a path, 2 returns a number; the
    parser knows the two cookie texts used below. *)
Definition host (cfg : Config.t) (jar : string -> JsVal) : Host.t :=
  Host.mk
    (fun n _ _ =>
       match n with
       | 0 => Return (JStr "")
       | 1 => Return (JStr "/dashboard")
       | 2 => Return (JNum 42)
       | _ => Throw (Rejected JNull)
       end)
    cfg
    "AuthUser"
    "AuthUserTokens"
    (fun name _ _ _ => jar name)
    (fun v =>
       match v with
       | JStr str =>
           if String.eqb str "{}" then Return (JObj ∅)
           else if String.eqb str tokensText
           then Return (JObj (<[ "idToken" := JStr "tok" ]>
                                {[ "refreshToken" := JStr "ref" ]}))
           else Throw SyntaxError
       | _ => Throw SyntaxError
       end)
    (fun idToken _ =>
       match idToken with
       | JStr "tok" => Return alice
       | _ => Throw (Rejected (JStr "auth/invalid"))
       end)
    (fun arg =>
       match arg with
       | JObj m =>
           match m !! "serializedAuthUser" with
           | Some (JStr "SESSVAL") => alice
           | _ => anonymous
           end
       | _ => anonymous
       end).

(** As [host], with URL functions that return what strings they return
    and throw otherwise. *)
Definition typedHost (cfg : Config.t) (jar : string -> JsVal) : Host.t :=
  Host.mk
    (fun n _ _ =>
       match n with
       | 0 => Return (JStr "")
       | 1 => Return (JStr "/dashboard")
       | _ => Throw (Rejected JNull)
       end)
    cfg
    (Host.getAuthUserCookieName (host cfg jar))
    (Host.getAuthUserTokensCookieName (host cfg jar))
    (Host.getCookie (host cfg jar))
    (Host.JSON_parse (host cfg jar))
    (Host.verifyIdToken (host cfg jar))
    (Host.createAuthUser (host cfg jar)).

Definition emptyJar : string -> JsVal := fun _ => JUndefined.

(** Legacy settings: redirect to /login when unauthenticated. *)
Definition loginSettings (redirectConfig : JsVal) (user : AuthUser.t)
  : Settings.t :=
  Settings.mk redirectConfig RENDER REDIRECT_TO_LOGIN
    (UrlVal JNull) (UrlVal (JStr "/login")) ctx user.

(** No URL at the call site, both actions set to redirect. *)
Definition bareSettings (redirectConfig : JsVal) (user : AuthUser.t)
  : Settings.t :=
  Settings.mk redirectConfig REDIRECT_TO_APP REDIRECT_TO_LOGIN
    (UrlVal JNull) (UrlVal JNull) ctx user.

(** [{ destination: '/login', permanent: false }] *)
Definition loginRule : JsVal :=
  JObj (<[ "destination" := JStr "/login" ]> {[ "permanent" := JBool false ]}).

(** [{ destination: '/login', permanent: true }] *)
Definition permanentRule : JsVal :=
  JObj (<[ "destination" := JStr "/login" ]> {[ "permanent" := JBool true ]}).

(** No option given to [withAuthUserTokenSSR]. *)
Definition noOptions : SSR.Options :=
  SSR.mkOptions None None (UrlVal JUndefined) (UrlVal JUndefined) JUndefined.

(** Legacy options that send anonymous Sessions to /login. *)
Definition loginOptions : SSR.Options :=
  SSR.mkOptions None (Some REDIRECT_TO_LOGIN)
    (UrlVal JUndefined) (UrlVal (JStr "/login")) JUndefined.

(** A hook that answers with the same value for every context. *)
Definition constantHook (v : JsVal) : Ctx.t -> Outcome JsVal :=
  fun _ => Return v.

(** [{ destination: '/x', permanent: false }] *)
Definition xRule : JsVal :=
  JObj (<[ "destination" := JStr "/x" ]> {[ "permanent" := JBool false ]}).

(** A cookie jar holding the tokens cookie only. *)
Definition tokensJar (text : string) : string -> JsVal :=
  fun name => if String.eqb name "AuthUserTokens" then JStr text
              else JUndefined.

(** Only the global default carries a declarative configuration. *)
Definition globalDeclarative : Config.t :=
  Config.mk (UrlVal JUndefined) (UrlVal JUndefined)
    (JObj {[ "unauthenticatedUser" := loginRule ]}) noCookieOptions.

(** The login URL is computed by URL function [n]. *)
Definition computedLoginSettings (n : nat) (user : AuthUser.t) : Settings.t :=
  Settings.mk JNull RENDER REDIRECT_TO_LOGIN
    (UrlVal JNull) (UrlFn n) ctx user.

End Sample.

(** The URL function of the Session's own direction, selected by its
    action. *)
Definition ownDirectionFunction (h : Host.t) (s : Settings.t) (n : nat)
  : Prop :=
  (truthy (AuthUser.id (Settings.AuthUser s)) = false
   /\ Settings.whenUnauthed s = REDIRECT_TO_LOGIN
   /\ unauthenticatedRedirectURL h s = UrlFn n)
  \/ (truthy (AuthUser.id (Settings.AuthUser s)) = true
      /\ Settings.whenAuthed s = REDIRECT_TO_APP
      /\ authenticatedRedirectURL h s = UrlFn n).

(** The tokens cookie and the AuthUser cookie, as the resolver reads
    them. *)
Definition tokensCookie (h : Host.t) (res req keys secure signed : JsVal)
  : JsVal :=
  Host.getCookie h (Host.getAuthUserTokensCookieName h) req res
    (Config.mkCookies keys secure signed).

Definition userCookie (h : Host.t) (res req keys secure signed : JsVal)
  : JsVal :=
  Host.getCookie h (Host.getAuthUserCookieName h) req res
    (Config.mkCookies keys secure signed).

(** A primitive other than null and undefined. *)
Definition isPrimitive (v : JsVal) : bool :=
  match v with
  | JBool _ | JNum _ | JStr _ => true
  | _ => false
  end.

(** A value is an object. *)
Definition isObject (v : JsVal) : bool :=
  match v with JObj _ => true | _ => false end.

(** How often the log holds a call of the page's hook. *)
Definition hookCalls (t : list Event) : nat :=
  length (List.filter is_CallHook t).

(** ** Further sample inputs *)
Module Probe.

(** As [Sample.host], with a parser that also knows the texts null and
    42. *)
Definition host (cfg : Config.t) (jar : string -> JsVal) : Host.t :=
  Host.mk
    (Host.callFn (Sample.host cfg jar))
    cfg
    (Host.getAuthUserCookieName (Sample.host cfg jar))
    (Host.getAuthUserTokensCookieName (Sample.host cfg jar))
    (Host.getCookie (Sample.host cfg jar))
    (fun v =>
       match v with
       | JStr str =>
           if String.eqb str "null" then Return JNull
           else if String.eqb str "42" then Return (JNum 42)
           else Host.JSON_parse (Sample.host cfg jar) v
       | _ => Throw SyntaxError
       end)
    (Host.verifyIdToken (Sample.host cfg jar))
    (Host.createAuthUser (Sample.host cfg jar)).

(** A hook that throws. *)
Definition failingHook : Ctx.t -> Outcome JsVal :=
  fun _ => Throw (Rejected (JStr "boom")).

(** Both legacy URLs configured globally, as strings. *)
Definition globalURLs : Config.t :=
  Config.mk (UrlVal (JStr "/signin")) (UrlVal (JStr "/home")) JUndefined
    Sample.noCookieOptions.

(** Legacy settings with the given actions and call-site URLs. *)
Definition settings (whenAuthed whenUnauthed : AuthAction)
    (appPageURL authPageURL : Url) (redirectConfig : JsVal)
    (user : AuthUser.t) : Settings.t :=
  Settings.mk redirectConfig whenAuthed whenUnauthed appPageURL authPageURL
    Sample.ctx user.

(** A cookie jar holding the AuthUser cookie only. *)
Definition userJar (text : string) : string -> JsVal :=
  fun name => if String.eqb name "AuthUser" then JStr text else JUndefined.

End Probe.

(** ** The monad *)

Lemma bind_ret {A B} (a : A) (k : A -> M B) : bind (ret a) k = k a.
Proof. unfold bind, ret. destruct (k a) as [t r]. reflexivity. Qed.

(** ** The redirect engine *)

(** With a call-site configuration object, the rule lookup of
    [withAuthUserTokenSSR.js] answers with the rule of the auth state. *)
Lemma SSR_findRedirectRule_call_site h s m :
  Settings.redirectConfig s = JObj m ->
  SSR.findRedirectRule h s
  = ret (redirectObject (ruleOf m (Settings.AuthUser s))).
Proof.
  intros E. unfold SSR.findRedirectRule, ruleOf, ruleKey, js_or.
  rewrite E. simpl.
  destruct (truthy (AuthUser.id (Settings.AuthUser s))); reflexivity.
Qed.

(** The exported [findRedirectRule] answers from the configuration in
    force, call-site or global. *)
Lemma Redirects_findRedirectRule_object h s m :
  declarativeConfig h s = JObj m ->
  Redirects.findRedirectRule h s
  = ret (redirectObject (ruleOf m (Settings.AuthUser s))).
Proof.
  unfold declarativeConfig, Redirects.findRedirectRule, ruleOf, ruleKey.
  intros ->. simpl.
  destruct (truthy (AuthUser.id (Settings.AuthUser s))); reflexivity.
Qed.

Lemma Redirects_processRedirect_unfold h s :
  Redirects.processRedirect h s
  = if legacyURLConfigured h s then legacyBranches h s
    else Redirects.findRedirectRule h s.
Proof.
  unfold Redirects.processRedirect, Redirects.findLegacyRedirect,
    legacyURLConfigured, url_or.
  destruct (url_truthy (unauthenticatedRedirectURL h s)) eqn:E; simpl.
  - rewrite E. reflexivity.
  - destruct (url_truthy (authenticatedRedirectURL h s)); reflexivity.
Qed.

(** C1, as the code has it: in [withAuthUserTokenSSR.js] a call-site
    declarative object (even an empty one) makes [processRedirect] return
    exactly [{ redirect: r }], [r] being the rule of the Session's auth
    state or undefined, whatever the legacy URLs and actions are and with
    no URL function called; the exported generator-based [processRedirect]
    returns the declarative answer (from the call-site object, else the
    global one) only when neither legacy URL is configured, and runs the
    legacy branches, ignoring the declarative object, when one is. *)
Theorem C1_declarative_precedence h s m :
  declarativeConfig h s = JObj m ->
  (Settings.redirectConfig s = JObj m ->
   SSR.processRedirect h s
   = ([], Return (redirectObject (ruleOf m (Settings.AuthUser s)))))
  /\ (legacyURLConfigured h s = false ->
      Redirects.processRedirect h s
      = ([], Return (redirectObject (ruleOf m (Settings.AuthUser s)))))
  /\ (legacyURLConfigured h s = true ->
      Redirects.processRedirect h s = legacyBranches h s).
Proof.
  intros Hcfg. repeat split.
  - intros Hcall. unfold SSR.processRedirect.
    rewrite (SSR_findRedirectRule_call_site h s m Hcall), bind_ret.
    reflexivity.
  - intros Hno. rewrite Redirects_processRedirect_unfold, Hno.
    apply Redirects_findRedirectRule_object, Hcfg.
  - intros Hyes. rewrite Redirects_processRedirect_unfold, Hyes. reflexivity.
Qed.

(** C1 as stated fails on the exported engine: with the empty declarative
    object and a legacy login URL, an anonymous Session is sent to /login
    instead of receiving [{ redirect: undefined }]. *)
Lemma C1_counterexample :
  let h := Sample.host Sample.unset Sample.emptyJar in
  let s := Sample.loginSettings (JObj ∅) Sample.anonymous in
  Settings.redirectConfig s = JObj ∅
  /\ Redirects.processRedirect h s = ([], Return (directive (JStr "/login")))
  /\ Redirects.processRedirect h s
     <> ([], Return (redirectObject (ruleOf ∅ Sample.anonymous))).
Proof.
  repeat split.
  intros H.
  apply (f_equal (fun r : M JsVal =>
                    match snd r with
                    | Return (JObj o) => o !! "redirect"
                    | _ => None
                    end)) in H.
  vm_compute in H. discriminate H.
Qed.

Lemma C1_witness :
  let h := Sample.host Sample.unset Sample.emptyJar in
  let config := JObj {[ "unauthenticatedUser" := Sample.loginRule ]} in
  SSR.processRedirect h (Sample.loginSettings config Sample.anonymous)
  = ([], Return (redirectObject Sample.loginRule))
  /\ Redirects.processRedirect h (Sample.loginSettings config Sample.anonymous)
     = legacyBranches h (Sample.loginSettings config Sample.anonymous)
  /\ Redirects.processRedirect h (Sample.bareSettings config Sample.alice)
     = ([], Return (redirectObject JUndefined)).
Proof.
  pose proof (C1_declarative_precedence
                (Sample.host Sample.unset Sample.emptyJar)
                (Sample.loginSettings
                   (JObj {[ "unauthenticatedUser" := Sample.loginRule ]})
                   Sample.anonymous)
                {[ "unauthenticatedUser" := Sample.loginRule ]}
                eq_refl) as (H1 & _ & H3).
  pose proof (C1_declarative_precedence
                (Sample.host Sample.unset Sample.emptyJar)
                (Sample.bareSettings
                   (JObj {[ "unauthenticatedUser" := Sample.loginRule ]})
                   Sample.alice)
                {[ "unauthenticatedUser" := Sample.loginRule ]}
                eq_refl) as (_ & H2 & _).
  split; [exact (H1 eq_refl) | split; [exact (H3 eq_refl) | exact (H2 eq_refl)]].
Defined.

Lemma SSR_findRedirectRule_absent h s :
  truthy (declarativeConfig h s) = false ->
  SSR.findRedirectRule h s = ret JNull.
Proof.
  unfold declarativeConfig, SSR.findRedirectRule. intros ->. reflexivity.
Qed.

Lemma Redirects_findRedirectRule_absent h s :
  truthy (declarativeConfig h s) = false ->
  Redirects.findRedirectRule h s = ret JNull.
Proof.
  unfold declarativeConfig, Redirects.findRedirectRule. intros ->. reflexivity.
Qed.

(** Without a declarative configuration the engine of
    [withAuthUserTokenSSR.js] is its legacy strategy. *)
Lemma SSR_processRedirect_legacy h s :
  truthy (declarativeConfig h s) = false ->
  SSR.processRedirect h s = legacyBranches h s.
Proof.
  intros H. unfold SSR.processRedirect.
  rewrite (SSR_findRedirectRule_absent h s H), bind_ret. reflexivity.
Qed.

Lemma redirectUnauthenticatedUser_unset h url ctx user :
  url_truthy url = false ->
  redirectUnauthenticatedUser h url ctx user
  = ([], Throw (Error AuthPageURLMustBeSet)).
Proof. unfold redirectUnauthenticatedUser. intros ->. reflexivity. Qed.

Lemma redirectAuthenticatedUser_unset h url ctx user :
  url_truthy url = false ->
  redirectAuthenticatedUser h url ctx user
  = ([], Throw (Error AppPageURLMustBeSet)).
Proof. unfold redirectAuthenticatedUser. intros ->. reflexivity. Qed.

Lemma legacyURLConfigured_false h s :
  legacyURLConfigured h s = false ->
  url_truthy (unauthenticatedRedirectURL h s) = false
  /\ url_truthy (authenticatedRedirectURL h s) = false.
Proof. unfold legacyURLConfigured. apply orb_false_elim. Qed.

(** C2, as the code has it: with both legacy URLs unset (call site and
    global) and no declarative configuration, the exported generator-based
    engine returns null for every Session and every pair of action flags,
    without running the per-action branches; the engine inlined in
    [withAuthUserTokenSSR.js] has no such short-circuit: it returns null
    only when the action for the Session's auth state is not a redirect,
    and otherwise throws the configuration error of the missing URL. *)
Theorem C2_inert_without_legacy_urls h s :
  legacyURLConfigured h s = false ->
  truthy (declarativeConfig h s) = false ->
  Redirects.processRedirect h s = ([], Return JNull)
  /\ SSR.processRedirect h s
     = (if shouldRedirectUnauthedUser s
        then ([], Throw (Error AuthPageURLMustBeSet))
        else if shouldRedirectAuthedUser s
        then ([], Throw (Error AppPageURLMustBeSet))
        else ([], Return JNull)).
Proof.
  intros Hurls Hdecl. split.
  - rewrite Redirects_processRedirect_unfold, Hurls.
    apply Redirects_findRedirectRule_absent, Hdecl.
  - destruct (legacyURLConfigured_false h s Hurls) as [Hu Ha].
    rewrite (SSR_processRedirect_legacy h s Hdecl). unfold legacyBranches.
    rewrite (redirectUnauthenticatedUser_unset h _ _ _ Hu),
      (redirectAuthenticatedUser_unset h _ _ _ Ha).
    reflexivity.
Qed.

(** C2 as stated fails on the engine of [withAuthUserTokenSSR.js]: with
    nothing configured and whenUnauthed set to REDIRECT_TO_LOGIN, an
    anonymous Session gets the configuration error, not null. *)
Lemma C2_counterexample :
  let h := Sample.host Sample.unset Sample.emptyJar in
  let s := Sample.bareSettings JNull Sample.anonymous in
  legacyURLConfigured h s = false
  /\ truthy (declarativeConfig h s) = false
  /\ SSR.processRedirect h s = ([], Throw (Error AuthPageURLMustBeSet))
  /\ SSR.processRedirect h s <> ([], Return JNull).
Proof. repeat split. discriminate. Qed.

Lemma C2_witness :
  let h := Sample.host Sample.unset Sample.emptyJar in
  Redirects.processRedirect h (Sample.bareSettings JNull Sample.anonymous)
  = ([], Return JNull)
  /\ Redirects.processRedirect h (Sample.bareSettings JNull Sample.alice)
     = ([], Return JNull)
  /\ SSR.processRedirect h (Sample.bareSettings JNull Sample.alice)
     = ([], Throw (Error AppPageURLMustBeSet)).
Proof.
  pose proof (C2_inert_without_legacy_urls
                (Sample.host Sample.unset Sample.emptyJar)
                (Sample.bareSettings JNull Sample.anonymous)
                eq_refl eq_refl) as [H1 _].
  pose proof (C2_inert_without_legacy_urls
                (Sample.host Sample.unset Sample.emptyJar)
                (Sample.bareSettings JNull Sample.alice)
                eq_refl eq_refl) as [H2 H3].
  split; [exact H1 | split; [exact H2 | exact H3]].
Defined.

Lemma truthy_string_nonempty (str : string) :
  truthy (JStr str) = true -> str <> "".
Proof. simpl. intros H ->. discriminate H. Qed.

(** What [destination] can be when it is bound without a throw: the URL
    string itself, or what the URL function returned. *)
Lemma resolveDestination_returns h url ctx user t d :
  resolveDestination h url ctx user = (t, Return d) ->
  (url = UrlVal d /\ (exists str, d = JStr str) /\ t = [])
  \/ (exists n, url = UrlFn n /\ Host.callFn h n ctx user = Return d
                /\ t = [CallURL n ctx user]).
Proof.
  destruct url as [v | n]; simpl.
  - destruct v; simpl; intros H; try discriminate H.
    injection H as <- <-. left. eauto.
  - unfold call, bind, emit, lift. simpl. intros H. injection H as <- H.
    right. eauto.
Qed.

Lemma redirectUnauthenticatedUser_returns h url ctx user t v :
  redirectUnauthenticatedUser h url ctx user = (t, Return v) ->
  exists d, resolveDestination h url ctx user = (t, Return d)
            /\ truthy d = true /\ v = directive d.
Proof.
  unfold redirectUnauthenticatedUser.
  destruct (url_truthy url); simpl; [| discriminate].
  destruct (resolveDestination h url ctx user) as [t0 [d | e]]; simpl;
    [| discriminate].
  destruct (truthy d) eqn:Hd; simpl; intros H; [| discriminate H].
  injection H as <- <-. exists d. rewrite app_nil_r. auto.
Qed.

Lemma redirectAuthenticatedUser_returns h url ctx user t v :
  redirectAuthenticatedUser h url ctx user = (t, Return v) ->
  exists d, resolveDestination h url ctx user = (t, Return d)
            /\ truthy d = true /\ v = directive d.
Proof.
  unfold redirectAuthenticatedUser.
  destruct (url_truthy url); simpl; [| discriminate].
  destruct (resolveDestination h url ctx user) as [t0 [d | e]]; simpl;
    [| discriminate].
  destruct (truthy d) eqn:Hd; simpl; intros H; [| discriminate H].
  injection H as <- <-. exists d. rewrite app_nil_r. auto.
Qed.

Lemma redirectUnauthenticatedUser_empty h url ctx user t d :
  url_truthy url = true ->
  resolveDestination h url ctx user = (t, Return d) ->
  truthy d = false ->
  redirectUnauthenticatedUser h url ctx user = (t, Throw (Error AuthPageURLEmpty)).
Proof.
  unfold redirectUnauthenticatedUser. intros -> -> Hd. simpl.
  rewrite Hd. simpl. rewrite app_nil_r. reflexivity.
Qed.

(** C3: for an anonymous Session with whenUnauthed set to
    REDIRECT_TO_LOGIN and no declarative configuration, the engine of
    [withAuthUserTokenSSR.js] throws a configuration error when no
    authPageURL is configured at the call site or globally, and when the
    configured URL, string or function, resolves to an empty (falsy)
    destination; in neither case does it return null or a directive. *)
Theorem C3_login_url_required h s :
  truthy (AuthUser.id (Settings.AuthUser s)) = false ->
  Settings.whenUnauthed s = REDIRECT_TO_LOGIN ->
  truthy (declarativeConfig h s) = false ->
  (url_truthy (unauthenticatedRedirectURL h s) = false ->
   SSR.processRedirect h s = ([], Throw (Error AuthPageURLMustBeSet)))
  /\ (forall d,
        url_truthy (unauthenticatedRedirectURL h s) = true ->
        outcome (resolveDestination h (unauthenticatedRedirectURL h s)
                   (Settings.ctx s) (Settings.AuthUser s)) = Return d ->
        truthy d = false ->
        outcome (SSR.processRedirect h s) = Throw (Error AuthPageURLEmpty)).
Proof.
  intros Hid Hflag Hdecl.
  rewrite (SSR_processRedirect_legacy h s Hdecl).
  unfold legacyBranches, shouldRedirectUnauthedUser.
  rewrite Hid, Hflag. simpl. split.
  - intros Hu. apply redirectUnauthenticatedUser_unset, Hu.
  - intros d Hu Hres Hd.
    destruct (resolveDestination h (unauthenticatedRedirectURL h s)
                (Settings.ctx s) (Settings.AuthUser s)) as [t o] eqn:E.
    simpl in Hres. subst o.
    rewrite (redirectUnauthenticatedUser_empty h _ _ _ t d Hu E Hd).
    reflexivity.
Qed.

Lemma C3_witness :
  let h := Sample.host Sample.unset Sample.emptyJar in
  SSR.processRedirect h (Sample.bareSettings JNull Sample.anonymous)
  = ([], Throw (Error AuthPageURLMustBeSet))
  /\ outcome (SSR.processRedirect h
                (Sample.computedLoginSettings 0 Sample.anonymous))
     = Throw (Error AuthPageURLEmpty).
Proof.
  split.
  - exact (proj1 (C3_login_url_required
                    (Sample.host Sample.unset Sample.emptyJar)
                    (Sample.bareSettings JNull Sample.anonymous)
                    eq_refl eq_refl eq_refl) eq_refl).
  - exact (proj2 (C3_login_url_required
                    (Sample.host Sample.unset Sample.emptyJar)
                    (Sample.computedLoginSettings 0 Sample.anonymous)
                    eq_refl eq_refl eq_refl) (JStr "") eq_refl eq_refl eq_refl).
Defined.

(** C4, the defect: with no call-site redirectConfig (the orchestrator's
    default, null) and a declarative configuration in the global default
    only, [findRedirectRule] of [withAuthUserTokenSSR.js] passes the
    [config] test and then reads the rule from the null call-site value,
    which throws a TypeError; the exported [findRedirectRule] reads it
    from [config] and returns the global rule. *)
Theorem C4_global_only_rule_lookup_throws :
  let h := Sample.host Sample.globalDeclarative Sample.emptyJar in
  let s := Sample.bareSettings JNull Sample.anonymous in
  SSR.findRedirectRule h s = ([], Throw (TypeError "cannot read properties"))
  /\ SSR.processRedirect h s = ([], Throw (TypeError "cannot read properties"))
  /\ Redirects.findRedirectRule h s
     = ([], Return (redirectObject Sample.loginRule))
  /\ Redirects.processRedirect h s
     = ([], Return (redirectObject Sample.loginRule)).
Proof. repeat split. Qed.

Lemma resolved_string_nonempty h url ctx user t d :
  urlFunctionsReturnStrings h ->
  resolveDestination h url ctx user = (t, Return d) ->
  truthy d = true ->
  exists str, d = JStr str /\ str <> "".
Proof.
  intros Htyped Hres Hd.
  destruct (resolveDestination_returns h url ctx user t d Hres)
    as [(_ & [str ->] & _) | (n & _ & Hcall & _)].
  - exists str. split; [reflexivity | apply truthy_string_nonempty, Hd].
  - destruct (Htyped n ctx user d Hcall) as [str ->].
    exists str. split; [reflexivity | apply truthy_string_nonempty, Hd].
Qed.

(** C8, as the code has it: every directive the two legacy helpers
    construct is [{ redirect: { destination, permanent: false } }] with a
    truthy destination, which is either the non-empty URL string itself or
    the value the URL function returned, whatever its type; it is a
    non-empty string whenever URL functions return strings.  Every
    non-null value of the legacy strategy is such a directive.  On the
    declarative path nothing is constructed or checked: the configured
    rule is returned as it is, whatever its destination and permanent
    flag. *)
Theorem C8_constructed_directives_temporary h :
  (forall url ctx user v,
      outcome (redirectUnauthenticatedUser h url ctx user) = Return v
      \/ outcome (redirectAuthenticatedUser h url ctx user) = Return v ->
      exists d, isDirective v d /\ truthy d = true
                /\ ((exists str, url = UrlVal (JStr str) /\ d = JStr str
                                 /\ str <> "")
                    \/ (exists n, url = UrlFn n
                                  /\ Host.callFn h n ctx user = Return d))
                /\ (urlFunctionsReturnStrings h ->
                    exists str, d = JStr str /\ str <> ""))
  /\ (forall s v,
        outcome (legacyBranches h s) = Return v -> v <> JNull ->
        exists d, isDirective v d /\ truthy d = true
                  /\ (urlFunctionsReturnStrings h ->
                      exists str, d = JStr str /\ str <> ""))
  /\ (forall s m,
        Settings.redirectConfig s = JObj m ->
        SSR.processRedirect h s
        = ([], Return (redirectObject (ruleOf m (Settings.AuthUser s))))).
Proof.
  assert (Horigin : forall url ctx user t d,
             resolveDestination h url ctx user = (t, Return d) ->
             truthy d = true ->
             (exists str, url = UrlVal (JStr str) /\ d = JStr str /\ str <> "")
             \/ (exists n, url = UrlFn n
                           /\ Host.callFn h n ctx user = Return d)).
  { intros url ctx user t d Hres Hd.
    destruct (resolveDestination_returns h url ctx user t d Hres)
      as [(Hu & [str ->] & _) | (n & Hu & Hcall & _)].
    - left. exists str. repeat split; [exact Hu |].
      apply truthy_string_nonempty, Hd.
    - right. exists n. split; [exact Hu | exact Hcall]. }
  assert (Hhelpers : forall url ctx user v,
      outcome (redirectUnauthenticatedUser h url ctx user) = Return v
      \/ outcome (redirectAuthenticatedUser h url ctx user) = Return v ->
      exists d, isDirective v d /\ truthy d = true
                /\ ((exists str, url = UrlVal (JStr str) /\ d = JStr str
                                 /\ str <> "")
                    \/ (exists n, url = UrlFn n
                                  /\ Host.callFn h n ctx user = Return d))
                /\ (urlFunctionsReturnStrings h ->
                    exists str, d = JStr str /\ str <> "")).
  { intros url ctx user v [H | H].
    - destruct (redirectUnauthenticatedUser h url ctx user) as [t o] eqn:E.
      simpl in H. subst o.
      destruct (redirectUnauthenticatedUser_returns h url ctx user t v E)
        as (d & Hres & Hd & ->).
      exists d. split; [reflexivity | split; [exact Hd | split]].
      + exact (Horigin url ctx user t d Hres Hd).
      + intros Htyped.
        exact (resolved_string_nonempty h url ctx user t d Htyped Hres Hd).
    - destruct (redirectAuthenticatedUser h url ctx user) as [t o] eqn:E.
      simpl in H. subst o.
      destruct (redirectAuthenticatedUser_returns h url ctx user t v E)
        as (d & Hres & Hd & ->).
      exists d. split; [reflexivity | split; [exact Hd | split]].
      + exact (Horigin url ctx user t d Hres Hd).
      + intros Htyped.
        exact (resolved_string_nonempty h url ctx user t d Htyped Hres Hd). }
  split; [exact Hhelpers | split].
  - intros s v H Hnn. unfold legacyBranches in H.
    destruct (shouldRedirectUnauthedUser s).
    + destruct (Hhelpers _ _ _ v (or_introl H)) as (d & H1 & H2 & _ & H3).
      exists d. auto.
    + destruct (shouldRedirectAuthedUser s).
      * destruct (Hhelpers _ _ _ v (or_intror H)) as (d & H1 & H2 & _ & H3).
        exists d. auto.
      * simpl in H. injection H as <-. contradiction.
  - intros s m Hcall. unfold SSR.processRedirect.
    rewrite (SSR_findRedirectRule_call_site h s m Hcall), bind_ret.
    reflexivity.
Qed.

(** C8 as stated fails in three ways.  On the declarative path a
    configured rule with [permanent: true], or with an empty destination,
    leaves the engine, and the orchestrator, as it is; and a URL function
    that returns a number gives a directive whose destination is that
    number, not a string. *)
Lemma C8_counterexample :
  let h := Sample.host Sample.unset Sample.emptyJar in
  let emptyRule :=
    JObj (<[ "destination" := JStr "" ]> {[ "permanent" := JBool false ]}) in
  SSR.processRedirect h
    (Sample.bareSettings
       (JObj {[ "unauthenticatedUser" := Sample.permanentRule ]})
       Sample.anonymous)
  = ([], Return (JObj {[ "redirect" :=
                           JObj (<[ "destination" := JStr "/login" ]>
                                   {[ "permanent" := JBool true ]}) ]}))
  /\ (forall d, ~ isDirective (JObj {[ "redirect" := Sample.permanentRule ]}) d)
  /\ outcome (SSR.withAuthUserTokenSSR h
                (SSR.mkOptions None None (UrlVal JUndefined) (UrlVal JUndefined)
                   (JObj {[ "unauthenticatedUser" := Sample.permanentRule ]}))
                JUndefined None Sample.ctx)
     = Return (JObj {[ "redirect" := Sample.permanentRule ]})
  /\ SSR.processRedirect h
       (Sample.bareSettings (JObj {[ "authenticatedUser" := emptyRule ]})
          Sample.alice)
     = ([], Return (JObj {[ "redirect" :=
                              JObj (<[ "destination" := JStr "" ]>
                                      {[ "permanent" := JBool false ]}) ]}))
  /\ outcome (redirectUnauthenticatedUser h (UrlFn 2) Sample.ctx
                Sample.anonymous)
     = Return (JObj {[ "redirect" :=
                         JObj (<[ "destination" := JNum 42 ]>
                                 {[ "permanent" := JBool false ]}) ]}).
Proof.
  split; [reflexivity | split; [| repeat split]].
  intros d H. unfold isDirective in H.
  apply (f_equal (fun v =>
                    match v with
                    | JObj o =>
                        match o !! "redirect" with
                        | Some (JObj r) => r !! "permanent"
                        | _ => None
                        end
                    | _ => None
                    end)) in H.
  vm_compute in H. discriminate H.
Qed.

Lemma typedHost_returns_strings cfg jar :
  urlFunctionsReturnStrings (Sample.typedHost cfg jar).
Proof.
  intros n ctx user v. destruct n as [| [| n]]; simpl; intros H;
    try discriminate H; injection H as <-; eauto.
Qed.

Lemma C8_witness :
  (exists d str,
      isDirective (directive (JStr "/dashboard")) d
      /\ d = JStr str /\ str <> "")
  /\ SSR.processRedirect (Sample.typedHost Sample.unset Sample.emptyJar)
       (Sample.bareSettings
          (JObj {[ "unauthenticatedUser" := Sample.loginRule ]})
          Sample.anonymous)
     = ([], Return (redirectObject Sample.loginRule)).
Proof.
  split.
  - destruct (proj1 (C8_constructed_directives_temporary
                       (Sample.typedHost Sample.unset Sample.emptyJar))
                (UrlFn 1) Sample.ctx Sample.alice
                (directive (JStr "/dashboard"))
                (or_intror eq_refl)) as (d & Hdir & _ & _ & Hstr).
    destruct (Hstr (typedHost_returns_strings Sample.unset Sample.emptyJar))
      as (str & Hd & Hne).
    exists d, str. auto.
  - exact (proj2 (proj2 (C8_constructed_directives_temporary
                           (Sample.typedHost Sample.unset Sample.emptyJar)))
             (Sample.bareSettings
                (JObj {[ "unauthenticatedUser" := Sample.loginRule ]})
                Sample.anonymous)
             {[ "unauthenticatedUser" := Sample.loginRule ]} eq_refl).
Defined.

(** ** The orchestrator *)

Lemma outcome_bind {A B} (m : M A) (k : A -> M B) :
  outcome (bind m k)
  = match outcome m with
    | Return a => outcome (k a)
    | Throw e => Throw e
    end.
Proof.
  destruct m as [t [a | e]]; simpl; [| reflexivity].
  destruct (k a); reflexivity.
Qed.

Lemma trace_bind {A B} (m : M A) (k : A -> M B) :
  trace (bind m k)
  = (trace m ++ match outcome m with
                | Return a => trace (k a)
                | Throw _ => []
                end)%list.
Proof.
  destruct m as [t [a | e]]; simpl; [| symmetry; apply app_nil_r].
  destruct (k a); reflexivity.
Qed.

Lemma member_silent v k : trace (member v k) = [].
Proof. destruct v; reflexivity. Qed.

Lemma assign_silent v k x : trace (assign v k x) = [].
Proof. destruct v; reflexivity. Qed.

Lemma mergeComposedProps_silent s r : trace (SSR.mergeComposedProps s r) = [].
Proof.
  unfold SSR.mergeComposedProps.
  destruct (truthy (js_or r (JObj ∅))); [| reflexivity].
  rewrite trace_bind, member_silent. simpl.
  destruct (outcome (member (js_or r (JObj ∅)) "props")) as [props |];
    [| reflexivity].
  destruct (truthy props).
  - rewrite trace_bind, assign_silent. simpl.
    destruct (outcome (assign props "AuthUserSerialized" s)); reflexivity.
  - rewrite trace_bind, member_silent. simpl.
    destruct (outcome (member (js_or r (JObj ∅)) "notFound")) as [nf |];
      [| reflexivity].
    rewrite trace_bind, member_silent. simpl.
    destruct (outcome (member (js_or r (JObj ∅)) "redirect")) as [rd |];
      [| reflexivity].
    destruct (truthy nf || truthy rd); reflexivity.
Qed.

(** Past the engine, the orchestrator's result is the merge of the hook's
    result, or the minimal result when there is no hook. *)
Lemma orchestrator_outcome h o useToken hook ctx user :
  reachesHook h o useToken ctx user ->
  outcome (SSR.withAuthUserTokenSSR h o useToken hook ctx)
  = match hook with
    | None => Return (SSR.sessionProps (AuthUser.serialize user))
    | Some f =>
        match f (ctxWith ctx user) with
        | Return r =>
            outcome (SSR.mergeComposedProps (AuthUser.serialize user) r)
        | Throw e => Throw e
        end
    end.
Proof.
  intros [Hres Heng]. unfold SSR.withAuthUserTokenSSR. cbv zeta.
  change (SSR.determineAuthUser h _ _ _ _ _ _) with (resolveSession h useToken ctx).
  rewrite outcome_bind, Hres. cbv beta iota.
  rewrite outcome_bind, Heng. cbv beta iota. simpl truthy. cbv iota.
  destruct hook as [f |]; [| reflexivity].
  rewrite outcome_bind. unfold ctxWith.
  destruct (f _) as [r | e]; reflexivity.
Qed.

(** The merge on an object result, by the members it carries. *)
Lemma mergeComposedProps_object s (m : gmap string JsVal) :
  SSR.mergeComposedProps s (JObj m)
  = let props := default JUndefined (m !! "props") in
    if truthy props
    then bind (assign props "AuthUserSerialized" s)
           (fun props' => ret (JObj (<[ "props" := props' ]> m)))
    else if truthy (default JUndefined (m !! "notFound"))
            || truthy (default JUndefined (m !! "redirect"))
    then ret (JObj m)
    else ret (SSR.sessionProps s).
Proof.
  unfold SSR.mergeComposedProps, js_or. simpl.
  destruct (truthy (default JUndefined (m !! "props"))).
  - destruct (bind _ _); reflexivity.
  - destruct (truthy (default JUndefined (m !! "notFound"))
              || truthy (default JUndefined (m !! "redirect"))); reflexivity.
Qed.

(** C5, as the code has it: a hook result with a truthy [notFound] or
    [redirect] is returned as it is, with nothing injected, when it has no
    truthy [props]; when it also carries a [props] object the [props]
    branch is taken first, so the serialized Session is injected into
    [props] and the routing keys are kept beside it. *)
Theorem C5_routing_result_passthrough h o useToken f ctx user m :
  reachesHook h o useToken ctx user ->
  f (ctxWith ctx user) = Return (JObj m) ->
  truthy (default JUndefined (m !! "notFound"))
  || truthy (default JUndefined (m !! "redirect")) = true ->
  (truthy (default JUndefined (m !! "props")) = false ->
   outcome (SSR.withAuthUserTokenSSR h o useToken (Some f) ctx)
   = Return (JObj m))
  /\ (forall p,
        m !! "props" = Some (JObj p) ->
        outcome (SSR.withAuthUserTokenSSR h o useToken (Some f) ctx)
        = Return (JObj (<[ "props" :=
                             JObj (<[ "AuthUserSerialized" :=
                                        AuthUser.serialize user ]> p) ]> m))).
Proof.
  intros Hreach Hhook Hrouting.
  rewrite (orchestrator_outcome h o useToken (Some f) ctx user Hreach), Hhook,
    mergeComposedProps_object.
  cbv zeta. split.
  - intros ->. rewrite Hrouting. reflexivity.
  - intros p ->. reflexivity.
Qed.

(** C5 as stated fails when the hook's result carries both [redirect] and
    a [props] object: the orchestrator writes the serialized Session into
    [props], so what it returns is not the hook's result. *)
Lemma C5_counterexample :
  let h := Sample.host Sample.unset Sample.emptyJar in
  let result := JObj (<[ "redirect" := Sample.xRule ]> {[ "props" := JObj ∅ ]}) in
  outcome (member result "redirect") = Return Sample.xRule
  /\ outcome (SSR.withAuthUserTokenSSR h Sample.noOptions JUndefined
                (Some (Sample.constantHook result)) Sample.ctx)
     = Return (JObj (<[ "redirect" := Sample.xRule ]>
                       {[ "props" :=
                            JObj {[ "AuthUserSerialized" := JStr "ANON" ]} ]}))
  /\ outcome (SSR.withAuthUserTokenSSR h Sample.noOptions JUndefined
                (Some (Sample.constantHook result)) Sample.ctx)
     <> Return result.
Proof.
  split; [reflexivity | split; [vm_compute; reflexivity |]].
  intros H.
  apply (f_equal (fun r : Outcome JsVal =>
                    match r with
                    | Return (JObj o) =>
                        match o !! "props" with
                        | Some (JObj p) => p !! "AuthUserSerialized"
                        | _ => None
                        end
                    | _ => None
                    end)) in H.
  vm_compute in H. discriminate H.
Qed.

Lemma C5_witness :
  let h := Sample.host Sample.unset Sample.emptyJar in
  outcome (SSR.withAuthUserTokenSSR h Sample.noOptions JUndefined
             (Some (Sample.constantHook (JObj {[ "redirect" := Sample.xRule ]})))
             Sample.ctx)
  = Return (JObj {[ "redirect" := Sample.xRule ]})
  /\ outcome (SSR.withAuthUserTokenSSR h Sample.noOptions JUndefined
                (Some (Sample.constantHook
                         (JObj (<[ "notFound" := JBool true ]>
                                  {[ "props" := JObj ∅ ]}))))
                Sample.ctx)
     = Return (JObj (<[ "notFound" := JBool true ]>
                       {[ "props" :=
                            JObj {[ "AuthUserSerialized" := JStr "ANON" ]} ]})).
Proof.
  split.
  - exact (proj1 (C5_routing_result_passthrough
                    (Sample.host Sample.unset Sample.emptyJar)
                    Sample.noOptions JUndefined
                    (Sample.constantHook (JObj {[ "redirect" := Sample.xRule ]}))
                    Sample.ctx Sample.anonymous {[ "redirect" := Sample.xRule ]}
                    (conj eq_refl eq_refl) eq_refl eq_refl) eq_refl).
  - exact (proj2 (C5_routing_result_passthrough
                    (Sample.host Sample.unset Sample.emptyJar)
                    Sample.noOptions JUndefined
                    (Sample.constantHook
                       (JObj (<[ "notFound" := JBool true ]>
                                {[ "props" := JObj ∅ ]})))
                    Sample.ctx Sample.anonymous
                    (<[ "notFound" := JBool true ]> {[ "props" := JObj ∅ ]})
                    (conj eq_refl eq_refl) eq_refl eq_refl) ∅ eq_refl).
Defined.

(** C7: a hook result carrying a [props] object comes back with the
    serialized Session stored in that object under [AuthUserSerialized],
    its other members unchanged; with no hook, or a hook that returns
    nothing, the result is exactly
    [{ props: { AuthUserSerialized: s } }]. *)
Theorem C7_session_injected_into_props h o useToken ctx user :
  reachesHook h o useToken ctx user ->
  (forall f m p,
      f (ctxWith ctx user) = Return (JObj m) ->
      m !! "props" = Some (JObj p) ->
      outcome (SSR.withAuthUserTokenSSR h o useToken (Some f) ctx)
      = Return (JObj (<[ "props" :=
                           JObj (<[ "AuthUserSerialized" :=
                                      AuthUser.serialize user ]> p) ]> m)))
  /\ outcome (SSR.withAuthUserTokenSSR h o useToken None ctx)
     = Return (JObj {[ "props" :=
                         JObj {[ "AuthUserSerialized" :=
                                   AuthUser.serialize user ]} ]})
  /\ (forall f,
        f (ctxWith ctx user) = Return JUndefined ->
        outcome (SSR.withAuthUserTokenSSR h o useToken (Some f) ctx)
        = Return (JObj {[ "props" :=
                            JObj {[ "AuthUserSerialized" :=
                                      AuthUser.serialize user ]} ]})).
Proof.
  intros Hreach. repeat split.
  - intros f m p Hhook Hprops.
    rewrite (orchestrator_outcome h o useToken (Some f) ctx user Hreach),
      Hhook, mergeComposedProps_object.
    cbv zeta. rewrite Hprops. reflexivity.
  - rewrite (orchestrator_outcome h o useToken None ctx user Hreach).
    reflexivity.
  - intros f Hhook.
    rewrite (orchestrator_outcome h o useToken (Some f) ctx user Hreach),
      Hhook.
    reflexivity.
Qed.

Lemma C7_witness :
  let h := Sample.host Sample.unset
             (Sample.tokensJar Sample.tokensText) in
  outcome (SSR.withAuthUserTokenSSR h Sample.noOptions JUndefined
             (Some (Sample.constantHook
                      (JObj {[ "props" := JObj {[ "a" := JNum 1 ]} ]})))
             Sample.ctx)
  = Return (JObj {[ "props" :=
                      JObj (<[ "a" := JNum 1 ]>
                              {[ "AuthUserSerialized" := JStr "SESSVAL" ]}) ]})
  /\ outcome (SSR.withAuthUserTokenSSR h Sample.noOptions JUndefined
                None Sample.ctx)
     = Return (JObj {[ "props" :=
                         JObj {[ "AuthUserSerialized" := JStr "SESSVAL" ]} ]})
  /\ outcome (SSR.withAuthUserTokenSSR h Sample.noOptions JUndefined
                (Some (Sample.constantHook JUndefined)) Sample.ctx)
     = Return (JObj {[ "props" :=
                         JObj {[ "AuthUserSerialized" := JStr "SESSVAL" ]} ]}).
Proof.
  pose proof (C7_session_injected_into_props
                (Sample.host Sample.unset (Sample.tokensJar Sample.tokensText))
                Sample.noOptions JUndefined Sample.ctx Sample.alice
                (conj eq_refl eq_refl)) as (H1 & H2 & H3).
  split; [| split].
  - exact (H1 (Sample.constantHook
                 (JObj {[ "props" := JObj {[ "a" := JNum 1 ]} ]}))
              {[ "props" := JObj {[ "a" := JNum 1 ]} ]}
              {[ "a" := JNum 1 ]} eq_refl eq_refl).
  - exact H2.
  - exact (H3 (Sample.constantHook JUndefined) eq_refl).
Defined.

(** C10: a hook result that is an object with none of the keys [props],
    [notFound], [redirect] (such as [{ foo: 1 }]) is dropped whole and the
    minimal result [{ props: { AuthUserSerialized: s } }] returned; and a
    [props] object that already holds [AuthUserSerialized] has that value
    replaced by the serialized Session, its other members kept. *)
Theorem C10_unrecognised_result_discarded h o useToken ctx user f m :
  reachesHook h o useToken ctx user ->
  f (ctxWith ctx user) = Return (JObj m) ->
  (m <> ∅ ->
   m !! "props" = None -> m !! "notFound" = None -> m !! "redirect" = None ->
   outcome (SSR.withAuthUserTokenSSR h o useToken (Some f) ctx)
   = Return (JObj {[ "props" :=
                       JObj {[ "AuthUserSerialized" :=
                                 AuthUser.serialize user ]} ]}))
  /\ (forall p old,
        m !! "props" = Some (JObj p) ->
        p !! "AuthUserSerialized" = Some old ->
        exists p' : gmap string JsVal,
          outcome (SSR.withAuthUserTokenSSR h o useToken (Some f) ctx)
          = Return (JObj (<[ "props" := JObj p' ]> m))
          /\ p' !! "AuthUserSerialized" = Some (AuthUser.serialize user)
          /\ forall k, k <> "AuthUserSerialized" -> p' !! k = p !! k).
Proof.
  intros Hreach Hhook.
  rewrite (orchestrator_outcome h o useToken (Some f) ctx user Hreach), Hhook,
    mergeComposedProps_object.
  cbv zeta. split.
  - intros _ -> -> ->. reflexivity.
  - intros p old -> _.
    exists (<[ "AuthUserSerialized" := AuthUser.serialize user ]> p).
    split; [reflexivity | split].
    + apply lookup_insert_eq.
    + intros k Hk. apply lookup_insert_ne. congruence.
Qed.

Lemma C10_witness :
  let h := Sample.host Sample.unset (Sample.tokensJar Sample.tokensText) in
  let mine := JObj {[ "props" := JObj {[ "AuthUserSerialized" := JStr "mine" ]} ]} in
  outcome (SSR.withAuthUserTokenSSR h Sample.noOptions JUndefined
             (Some (Sample.constantHook (JObj {[ "foo" := JNum 1 ]})))
             Sample.ctx)
  = Return (JObj {[ "props" :=
                      JObj {[ "AuthUserSerialized" := JStr "SESSVAL" ]} ]})
  /\ exists p' : gmap string JsVal,
       outcome (SSR.withAuthUserTokenSSR h Sample.noOptions JUndefined
                  (Some (Sample.constantHook mine)) Sample.ctx)
       = Return (JObj {[ "props" := JObj p' ]})
       /\ p' !! "AuthUserSerialized" = Some (JStr "SESSVAL").
Proof.
  split.
  - refine (proj1 (C10_unrecognised_result_discarded
                     (Sample.host Sample.unset
                        (Sample.tokensJar Sample.tokensText))
                     Sample.noOptions JUndefined Sample.ctx Sample.alice
                     (Sample.constantHook (JObj {[ "foo" := JNum 1 ]}))
                     {[ "foo" := JNum 1 ]}
                     (conj eq_refl eq_refl) eq_refl)
              _ eq_refl eq_refl eq_refl).
    intros H. apply (f_equal (fun o : gmap string JsVal => o !! "foo")) in H.
    vm_compute in H. discriminate H.
  - assert (Hprops :
             ({[ "props" := JObj {[ "AuthUserSerialized" := JStr "mine" ]} ]}
              : gmap string JsVal) !! "props"
             = Some (JObj {[ "AuthUserSerialized" := JStr "mine" ]}))
      by reflexivity.
    assert (Hold :
             ({[ "AuthUserSerialized" := JStr "mine" ]} : gmap string JsVal)
               !! "AuthUserSerialized" = Some (JStr "mine"))
      by reflexivity.
    destruct (proj2 (C10_unrecognised_result_discarded
                       (Sample.host Sample.unset
                          (Sample.tokensJar Sample.tokensText))
                       Sample.noOptions JUndefined Sample.ctx Sample.alice
                       (Sample.constantHook
                          (JObj {[ "props" :=
                                     JObj {[ "AuthUserSerialized" := JStr "mine" ]} ]}))
                       {[ "props" := JObj {[ "AuthUserSerialized" := JStr "mine" ]} ]}
                       (conj eq_refl eq_refl) eq_refl)
                {[ "AuthUserSerialized" := JStr "mine" ]} (JStr "mine")
                Hprops Hold) as (p' & Hout & Hnew & _).
    exists p'. split; [exact Hout | exact Hnew].
Defined.

(** ** Which collaborators a run calls *)

Lemma hookCalled_app t1 t2 :
  hookCalled (t1 ++ t2) = hookCalled t1 || hookCalled t2.
Proof. apply existsb_app. Qed.

Lemma call_no_hook h u ctx user : hookCalled (trace (call h u ctx user)) = false.
Proof.
  destruct u as [v | n]; simpl; [reflexivity |].
  unfold bind, emit, lift. reflexivity.
Qed.

Lemma resolveDestination_no_hook h url ctx user :
  hookCalled (trace (resolveDestination h url ctx user)) = false.
Proof.
  destruct url as [v | n]; [destruct v |]; simpl;
    try reflexivity; apply (call_no_hook h (UrlFn n)).
Qed.

Lemma redirectUnauthenticatedUser_no_hook h url ctx user :
  hookCalled (trace (redirectUnauthenticatedUser h url ctx user)) = false.
Proof.
  unfold redirectUnauthenticatedUser.
  destruct (url_truthy url); simpl; [| reflexivity].
  rewrite trace_bind, hookCalled_app, resolveDestination_no_hook. simpl.
  destruct (outcome (resolveDestination h url ctx user)) as [d | e];
    [| reflexivity].
  destruct (truthy d); reflexivity.
Qed.

Lemma redirectAuthenticatedUser_no_hook h url ctx user :
  hookCalled (trace (redirectAuthenticatedUser h url ctx user)) = false.
Proof.
  unfold redirectAuthenticatedUser.
  destruct (url_truthy url); simpl; [| reflexivity].
  rewrite trace_bind, hookCalled_app, resolveDestination_no_hook. simpl.
  destruct (outcome (resolveDestination h url ctx user)) as [d | e];
    [| reflexivity].
  destruct (truthy d); reflexivity.
Qed.

Lemma legacyBranches_no_hook h s :
  hookCalled (trace (legacyBranches h s)) = false.
Proof.
  unfold legacyBranches.
  destruct (shouldRedirectUnauthedUser s);
    [apply redirectUnauthenticatedUser_no_hook |].
  destruct (shouldRedirectAuthedUser s);
    [apply redirectAuthenticatedUser_no_hook | reflexivity].
Qed.

Lemma SSR_findRedirectRule_silent h s : trace (SSR.findRedirectRule h s) = [].
Proof.
  unfold SSR.findRedirectRule.
  destruct (truthy (js_or _ _)); simpl; [| reflexivity].
  rewrite trace_bind.
  destruct (truthy (AuthUser.id (Settings.AuthUser s)));
    rewrite member_silent; simpl;
    destruct (outcome (member _ _)); reflexivity.
Qed.

(** What the rule lookup of [withAuthUserTokenSSR.js] can return. *)
Lemma SSR_findRedirectRule_value h s v :
  outcome (SSR.findRedirectRule h s) = Return v ->
  v = JNull \/ exists r, v = redirectObject r.
Proof.
  unfold SSR.findRedirectRule.
  destruct (truthy (js_or _ _)); simpl.
  - rewrite outcome_bind.
    destruct (outcome (if truthy (AuthUser.id (Settings.AuthUser s))
                       then member (Settings.redirectConfig s) "authenticatedUser"
                       else member (Settings.redirectConfig s) "unauthenticatedUser"))
      as [r | e]; simpl; intros H; [| discriminate H].
    injection H as <-. right. eauto.
  - intros H. injection H as <-. left. reflexivity.
Qed.

Lemma legacyBranches_value h s v :
  outcome (legacyBranches h s) = Return v ->
  v = JNull \/ exists d, v = directive d.
Proof.
  unfold legacyBranches. intros H.
  destruct (shouldRedirectUnauthedUser s).
  - destruct (redirectUnauthenticatedUser h _ _ _) as [t o] eqn:E.
    simpl in H. subst o.
    destruct (redirectUnauthenticatedUser_returns _ _ _ _ _ _ E)
      as (d & _ & _ & ->).
    right. eauto.
  - destruct (shouldRedirectAuthedUser s).
    + destruct (redirectAuthenticatedUser h _ _ _) as [t o] eqn:E.
      simpl in H. subst o.
      destruct (redirectAuthenticatedUser_returns _ _ _ _ _ _ E)
        as (d & _ & _ & ->).
      right. eauto.
    + simpl in H. injection H as <-. left. reflexivity.
Qed.

(** The engine returns null or an object; so its result is non-null
    exactly when the orchestrator's [if (redirect)] takes it. *)
Lemma SSR_processRedirect_value h s v :
  outcome (SSR.processRedirect h s) = Return v ->
  v = JNull \/ truthy v = true.
Proof.
  unfold SSR.processRedirect. rewrite outcome_bind.
  destruct (outcome (SSR.findRedirectRule h s)) as [r | e] eqn:E;
    [| discriminate].
  destruct (SSR_findRedirectRule_value h s r E) as [-> | [x ->]]; simpl.
  - intros H. destruct (legacyBranches_value h s v H) as [-> | [d ->]]; auto.
  - intros H. injection H as <-. auto.
Qed.

Lemma SSR_processRedirect_no_hook h s :
  hookCalled (trace (SSR.processRedirect h s)) = false.
Proof.
  unfold SSR.processRedirect.
  rewrite trace_bind, SSR_findRedirectRule_silent. simpl.
  destruct (outcome (SSR.findRedirectRule h s)) as [r | e]; [| reflexivity].
  destruct (truthy r); [reflexivity |].
  apply legacyBranches_no_hook.
Qed.

Lemma determineAuthUser_no_hook h useToken res req keys secure signed :
  hookCalled
    (trace (SSR.determineAuthUser h useToken res req keys secure signed))
  = false.
Proof.
  unfold SSR.determineAuthUser.
  destruct (truthy useToken); [| reflexivity].
  rewrite trace_bind, hookCalled_app.
  assert (Hparse : forall c,
             trace (if truthy c then lift (Host.JSON_parse h c)
                    else ret (JObj ∅)) = []).
  { intros c. destruct (truthy c); reflexivity. }
  rewrite Hparse. simpl.
  destruct (outcome _) as [parsed | e]; [| reflexivity].
  rewrite trace_bind, member_silent. simpl.
  destruct (outcome (member parsed "idToken")) as [idToken | e];
    [| reflexivity].
  rewrite trace_bind, member_silent. simpl.
  destruct (outcome (member parsed "refreshToken")) as [refreshToken | e];
    [| reflexivity].
  destruct (truthy idToken); reflexivity.
Qed.

(** The orchestrator's whole run, by what the resolver, the engine and
    the hook answer. *)
Lemma orchestrator_run h o useToken hook ctx :
  SSR.withAuthUserTokenSSR h o useToken hook ctx
  = match resolveSession h useToken ctx with
    | (t0, Throw e) => (t0, Throw e)
    | (t0, Return user) =>
        match SSR.processRedirect h (SSR.settingsOf o ctx user) with
        | (t1, Throw e) => ((t0 ++ t1)%list, Throw e)
        | (t1, Return v) =>
            if truthy v then ((t0 ++ t1)%list, Return v)
            else
              match hook with
              | None =>
                  ((t0 ++ t1)%list,
                   Return (SSR.sessionProps (AuthUser.serialize user)))
              | Some f =>
                  ((t0 ++ t1 ++ [CallHook (ctxWith ctx user)])%list,
                   match f (ctxWith ctx user) with
                   | Return r =>
                       outcome (SSR.mergeComposedProps
                                  (AuthUser.serialize user) r)
                   | Throw e => Throw e
                   end)
              end
        end
    end.
Proof.
  unfold SSR.withAuthUserTokenSSR. cbv zeta.
  change (SSR.determineAuthUser h _ _ _ _ _ _)
    with (resolveSession h useToken ctx).
  destruct (resolveSession h useToken ctx) as [t0 [user | e]];
    [| reflexivity].
  unfold bind at 1.
  destruct (SSR.processRedirect h (SSR.settingsOf o ctx user))
    as [t1 [v | e]]; [| reflexivity].
  unfold bind at 1.
  destruct (truthy v); [simpl; rewrite !app_nil_r; reflexivity |].
  destruct hook as [f |]; [| simpl; rewrite !app_nil_r; reflexivity].
  fold (ctxWith ctx user).
  destruct (f (ctxWith ctx user)) as [r | e]; simpl.
  - pose proof (mergeComposedProps_silent (AuthUser.serialize user) r) as Hs.
    destruct (SSR.mergeComposedProps (AuthUser.serialize user) r) as [t2 o2].
    simpl in Hs. subst t2. reflexivity.
  - reflexivity.
Qed.

(** C6: when the redirect engine returns a non-null value the
    orchestrator returns that value at once and the log holds no call of
    the page's hook; the hook is called only in runs where the engine
    returned null, and in those it is called whenever one is given. *)
Theorem C6_redirect_preempts_hook h o useToken hook ctx :
  (forall t0 user t1 v,
      resolveSession h useToken ctx = (t0, Return user) ->
      SSR.processRedirect h (SSR.settingsOf o ctx user) = (t1, Return v) ->
      v <> JNull ->
      SSR.withAuthUserTokenSSR h o useToken hook ctx
      = ((t0 ++ t1)%list, Return v)
      /\ hookCalled (t0 ++ t1) = false)
  /\ (hookCalled (trace (SSR.withAuthUserTokenSSR h o useToken hook ctx)) = true ->
      exists user f, reachesHook h o useToken ctx user /\ hook = Some f)
  /\ (forall user f,
        reachesHook h o useToken ctx user -> hook = Some f ->
        In (CallHook (ctxWith ctx user))
           (trace (SSR.withAuthUserTokenSSR h o useToken hook ctx))).
Proof.
  pose proof (determineAuthUser_no_hook h (SSR.defaultTo (JBool true) useToken)
                (Ctx.res ctx) (Ctx.req ctx)
                (Config.keys (Config.cookies (Host.getConfig h)))
                (Config.secure (Config.cookies (Host.getConfig h)))
                (Config.signed (Config.cookies (Host.getConfig h)))) as Hres0.
  change (SSR.determineAuthUser h _ _ _ _ _ _)
    with (resolveSession h useToken ctx) in Hres0.
  rewrite orchestrator_run. unfold reachesHook.
  destruct (resolveSession h useToken ctx) as [t0 [user | e]];
    simpl in Hres0.
  2:{ split; [| split].
      - intros ? ? ? ? E. discriminate E.
      - simpl. rewrite Hres0. discriminate.
      - intros ? ? [E _]. discriminate E. }
  pose proof (SSR_processRedirect_no_hook h (SSR.settingsOf o ctx user)) as Heng0.
  pose proof (SSR_processRedirect_value h (SSR.settingsOf o ctx user)) as Hval.
  destruct (SSR.processRedirect h (SSR.settingsOf o ctx user))
    as [t1 [v | e]] eqn:Eeng; simpl in Heng0, Hval.
  2:{ split; [| split].
      - intros ? ? ? ? E E'. injection E as <- <-. rewrite Eeng in E'.
        discriminate E'.
      - simpl. rewrite hookCalled_app, Hres0, Heng0. discriminate.
      - intros ? ? [E E']. simpl in E. injection E as <-.
        rewrite Eeng in E'. discriminate E'. }
  destruct (Hval v eq_refl) as [-> | Hv].
  - (* the engine returned null *)
    simpl truthy. cbv iota. split; [| split].
    + intros ? ? ? ? E E' Hnn. injection E as <- <-. rewrite Eeng in E'.
      injection E' as <- <-. contradiction.
    + intros Hcalled. destruct hook as [f |].
      * exists user, f. simpl. rewrite Eeng. auto.
      * simpl in Hcalled. rewrite hookCalled_app, Hres0, Heng0 in Hcalled.
        discriminate Hcalled.
    + intros user' f [E _] ->. simpl in E. injection E as <-. simpl.
      apply in_or_app. right. apply in_or_app. right. left. reflexivity.
  - (* the engine returned a redirect *)
    rewrite Hv. split; [| split].
    + intros ? ? ? ? E E' _. injection E as <- <-. rewrite Eeng in E'.
      injection E' as <- <-.
      split; [reflexivity | rewrite hookCalled_app, Hres0, Heng0; reflexivity].
    + simpl. rewrite hookCalled_app, Hres0, Heng0. discriminate.
    + intros user' f [E E']. simpl in E. injection E as <-.
      rewrite Eeng in E'. simpl in E'. injection E' as ->. discriminate Hv.
Qed.

Lemma C6_witness :
  let h := Sample.host Sample.unset Sample.emptyJar in
  let hook := Some (Sample.constantHook (JObj {[ "foo" := JNum 1 ]})) in
  (SSR.withAuthUserTokenSSR h Sample.loginOptions JUndefined hook Sample.ctx
   = ([], Return (directive (JStr "/login")))
   /\ hookCalled [] = false)
  /\ (exists user f,
         reachesHook h Sample.noOptions JUndefined Sample.ctx user
         /\ hook = Some f)
  /\ In (CallHook (ctxWith Sample.ctx Sample.anonymous))
        (trace (SSR.withAuthUserTokenSSR h Sample.noOptions JUndefined hook
                  Sample.ctx)).
Proof.
  split; [| split].
  - refine (proj1 (C6_redirect_preempts_hook
                     (Sample.host Sample.unset Sample.emptyJar)
                     Sample.loginOptions JUndefined
                     (Some (Sample.constantHook (JObj {[ "foo" := JNum 1 ]})))
                     Sample.ctx)
              [] Sample.anonymous [] (directive (JStr "/login"))
              eq_refl eq_refl _).
    discriminate.
  - exact (proj1 (proj2 (C6_redirect_preempts_hook
                           (Sample.host Sample.unset Sample.emptyJar)
                           Sample.noOptions JUndefined
                           (Some (Sample.constantHook
                                    (JObj {[ "foo" := JNum 1 ]})))
                           Sample.ctx)) eq_refl).
  - exact (proj2 (proj2 (C6_redirect_preempts_hook
                           (Sample.host Sample.unset Sample.emptyJar)
                           Sample.noOptions JUndefined
                           (Some (Sample.constantHook
                                    (JObj {[ "foo" := JNum 1 ]})))
                           Sample.ctx))
             Sample.anonymous
             (Sample.constantHook (JObj {[ "foo" := JNum 1 ]}))
             (conj eq_refl eq_refl) eq_refl).
Defined.

(** ** The session resolver *)

(** C9, as the code has it: in token mode the resolver returns the
    anonymous AuthUser when the tokens cookie is absent; when the cookie
    is present and parses to an object, it reads [idToken] and
    [refreshToken] from it and, if [idToken] is truthy, calls the verifier
    once with the pair and returns or throws what the verifier does; if
    [idToken] is missing or falsy it returns the anonymous AuthUser and
    the verifier is not called. *)
Theorem C9_token_mode_resolution h useToken res req keys secure signed :
  truthy useToken = true ->
  (truthy (Host.getCookie h (Host.getAuthUserTokensCookieName h) req res
             (Config.mkCookies keys secure signed)) = false ->
   SSR.determineAuthUser h useToken res req keys secure signed
   = ([], Return (Host.createAuthUser h JUndefined)))
  /\ (forall m,
        truthy (Host.getCookie h (Host.getAuthUserTokensCookieName h) req res
                  (Config.mkCookies keys secure signed)) = true ->
        Host.JSON_parse h
          (Host.getCookie h (Host.getAuthUserTokensCookieName h) req res
             (Config.mkCookies keys secure signed)) = Return (JObj m) ->
        SSR.determineAuthUser h useToken res req keys secure signed
        = (if truthy (default JUndefined (m !! "idToken"))
           then ([CallVerifyIdToken (default JUndefined (m !! "idToken"))
                    (default JUndefined (m !! "refreshToken"))],
                 Host.verifyIdToken h (default JUndefined (m !! "idToken"))
                   (default JUndefined (m !! "refreshToken")))
           else ([], Return (Host.createAuthUser h JUndefined)))).
Proof.
  intros Hmode. unfold SSR.determineAuthUser. rewrite Hmode. split.
  - intros ->. reflexivity.
  - intros m -> ->. simpl.
    destruct (truthy (default JUndefined (m !! "idToken"))); reflexivity.
Qed.

(** C9 as stated fails when the tokens cookie is present but holds no
    [idToken]: the resolver answers with the anonymous AuthUser and never
    calls the verifier. *)
Lemma C9_counterexample :
  let h := Sample.host Sample.unset (Sample.tokensJar "{}") in
  Host.getCookie h (Host.getAuthUserTokensCookieName h)
    (JStr "req") (JStr "res") Sample.noCookieOptions = JStr "{}"
  /\ SSR.determineAuthUser h (JBool true) (JStr "res") (JStr "req")
       JUndefined JUndefined JUndefined
     = ([], Return (Host.createAuthUser h JUndefined))
  /\ existsb is_CallVerifyIdToken
       (trace (SSR.determineAuthUser h (JBool true) (JStr "res") (JStr "req")
                 JUndefined JUndefined JUndefined)) = false.
Proof. repeat split. Qed.

Lemma C9_witness :
  let h := Sample.host Sample.unset (Sample.tokensJar Sample.tokensText) in
  SSR.determineAuthUser h (JBool true) (JStr "res") (JStr "req")
    JUndefined JUndefined JUndefined
  = ([CallVerifyIdToken (JStr "tok") (JStr "ref")], Return Sample.alice)
  /\ SSR.determineAuthUser (Sample.host Sample.unset Sample.emptyJar)
       (JBool true) (JStr "res") (JStr "req") JUndefined JUndefined JUndefined
     = ([], Return Sample.anonymous).
Proof.
  split.
  - exact (proj2 (C9_token_mode_resolution
                    (Sample.host Sample.unset
                       (Sample.tokensJar Sample.tokensText))
                    (JBool true) (JStr "res") (JStr "req")
                    JUndefined JUndefined JUndefined eq_refl)
             (<[ "idToken" := JStr "tok" ]> {[ "refreshToken" := JStr "ref" ]})
             eq_refl eq_refl).
  - exact (proj1 (C9_token_mode_resolution
                    (Sample.host Sample.unset Sample.emptyJar)
                    (JBool true) (JStr "res") (JStr "req")
                    JUndefined JUndefined JUndefined eq_refl)
             eq_refl).
Defined.

(** ** Further properties of the redirect helpers *)

(** X1: called with a URL function, either exported helper calls it
    exactly once, with the context and the AuthUser; what the function
    throws is thrown on, a falsy result is the configuration error of an
    empty URL, and a truthy result becomes the destination as it is. *)
Theorem helpers_call_url_function_once h n ctx user :
  redirectUnauthenticatedUser h (UrlFn n) ctx user
  = ([CallURL n ctx user],
     match Host.callFn h n ctx user with
     | Return d => if truthy d then Return (directive d)
                   else Throw (Error AuthPageURLEmpty)
     | Throw e => Throw e
     end)
  /\ redirectAuthenticatedUser h (UrlFn n) ctx user
     = ([CallURL n ctx user],
        match Host.callFn h n ctx user with
        | Return d => if truthy d then Return (directive d)
                      else Throw (Error AppPageURLEmpty)
        | Throw e => Throw e
        end).
Proof.
  unfold redirectUnauthenticatedUser, redirectAuthenticatedUser,
    resolveDestination, call, bind, emit, lift. simpl.
  destruct (Host.callFn h n ctx user) as [d | e]; [| split; reflexivity].
  destruct (truthy d); split; reflexivity.
Qed.

(** X2: called with a plain value, either exported helper calls nothing:
    a non-empty string is the destination, a falsy value (undefined,
    null, the empty string, 0, false) is the configuration error of a
    missing URL, and any other value is called as a function and throws a
    TypeError. *)
Theorem helpers_on_plain_values h v ctx user :
  (forall str, v = JStr str -> str <> "" ->
     redirectUnauthenticatedUser h (UrlVal v) ctx user
     = ([], Return (directive (JStr str)))
     /\ redirectAuthenticatedUser h (UrlVal v) ctx user
        = ([], Return (directive (JStr str))))
  /\ (truthy v = false ->
      redirectUnauthenticatedUser h (UrlVal v) ctx user
      = ([], Throw (Error AuthPageURLMustBeSet))
      /\ redirectAuthenticatedUser h (UrlVal v) ctx user
         = ([], Throw (Error AppPageURLMustBeSet)))
  /\ (truthy v = true -> (forall str, v <> JStr str) ->
      redirectUnauthenticatedUser h (UrlVal v) ctx user
      = ([], Throw (TypeError "not a function"))
      /\ redirectAuthenticatedUser h (UrlVal v) ctx user
         = ([], Throw (TypeError "not a function"))).
Proof.
  split; [| split].
  - intros str -> Hne.
    unfold redirectUnauthenticatedUser, redirectAuthenticatedUser. simpl.
    destruct (String.eqb_spec str ""); [contradiction |].
    split; reflexivity.
  - intros Hv. split.
    + apply redirectUnauthenticatedUser_unset. exact Hv.
    + apply redirectAuthenticatedUser_unset. exact Hv.
  - intros Hv Hns.
    unfold redirectUnauthenticatedUser, redirectAuthenticatedUser. simpl.
    rewrite Hv. simpl.
    destruct v; try (split; reflexivity); try discriminate Hv.
    exfalso. exact (Hns s eq_refl).
Qed.

Lemma helpers_on_plain_values_witness :
  redirectUnauthenticatedUser (Sample.host Sample.unset Sample.emptyJar)
    (UrlVal (JStr "/login")) Sample.ctx Sample.anonymous
  = ([], Return (directive (JStr "/login")))
  /\ redirectAuthenticatedUser (Sample.host Sample.unset Sample.emptyJar)
       (UrlVal (JStr "")) Sample.ctx Sample.alice
     = ([], Throw (Error AppPageURLMustBeSet))
  /\ redirectUnauthenticatedUser (Sample.host Sample.unset Sample.emptyJar)
       (UrlVal (JNum 5)) Sample.ctx Sample.anonymous
     = ([], Throw (TypeError "not a function")).
Proof.
  split; [| split].
  - refine (proj1 (proj1 (helpers_on_plain_values
                            (Sample.host Sample.unset Sample.emptyJar)
                            (JStr "/login") Sample.ctx Sample.anonymous)
                     "/login" eq_refl _)).
    discriminate.
  - exact (proj2 (proj1 (proj2 (helpers_on_plain_values
                                  (Sample.host Sample.unset Sample.emptyJar)
                                  (JStr "") Sample.ctx Sample.alice))
                    eq_refl)).
  - refine (proj1 (proj2 (proj2 (helpers_on_plain_values
                                   (Sample.host Sample.unset Sample.emptyJar)
                                   (JNum 5) Sample.ctx Sample.anonymous))
                     eq_refl _)).
    discriminate.
Defined.

(** ** Further properties of the redirect engines *)

Lemma url_or_call_site (a b : Url) : url_truthy a = true -> url_or a b = a.
Proof. unfold url_or. intros ->. reflexivity. Qed.

Lemma url_or_global (a b : Url) : url_truthy a = false -> url_or a b = b.
Proof. unfold url_or. intros ->. reflexivity. Qed.

Lemma nonempty_string_truthy str : str <> "" -> truthy (JStr str) = true.
Proof. intros H. simpl. destruct (String.eqb_spec str ""); [contradiction | reflexivity]. Qed.

Lemma url_truthy_string str :
  str <> "" -> url_truthy (UrlVal (JStr str)) = true.
Proof. exact (nonempty_string_truthy str). Qed.

Lemma redirectUnauthenticatedUser_string h str ctx user :
  str <> "" ->
  redirectUnauthenticatedUser h (UrlVal (JStr str)) ctx user
  = ([], Return (directive (JStr str))).
Proof.
  intros H. unfold redirectUnauthenticatedUser. simpl.
  destruct (String.eqb_spec str ""); [contradiction | reflexivity].
Qed.

Lemma redirectAuthenticatedUser_string h str ctx user :
  str <> "" ->
  redirectAuthenticatedUser h (UrlVal (JStr str)) ctx user
  = ([], Return (directive (JStr str))).
Proof.
  intros H. unfold redirectAuthenticatedUser. simpl.
  destruct (String.eqb_spec str ""); [contradiction | reflexivity].
Qed.

(** X3: an anonymous Session under whenUnauthed = REDIRECT_TO_LOGIN is
    sent to the login URL string: the call-site authPageURL when it is a
    non-empty string, whatever the global default says, and the global
    default when the call site has none.  The exported engine does so
    whatever the declarative configuration; the engine of
    [withAuthUserTokenSSR.js] when there is no declarative
    configuration.  No URL function is called. *)
Theorem login_redirect_prefers_call_site_url h s str :
  truthy (AuthUser.id (Settings.AuthUser s)) = false ->
  Settings.whenUnauthed s = REDIRECT_TO_LOGIN ->
  str <> "" ->
  Settings.authPageURL s = UrlVal (JStr str)
  \/ (url_truthy (Settings.authPageURL s) = false
      /\ Config.authPageURL (Host.getConfig h) = UrlVal (JStr str)) ->
  Redirects.processRedirect h s = ([], Return (directive (JStr str)))
  /\ (truthy (declarativeConfig h s) = false ->
      SSR.processRedirect h s = ([], Return (directive (JStr str)))).
Proof.
  intros Hid Hflag Hne Hurl.
  assert (Hu : unauthenticatedRedirectURL h s = UrlVal (JStr str)).
  { unfold unauthenticatedRedirectURL.
    destruct Hurl as [E | [E1 E2]].
    - rewrite E. apply url_or_call_site, url_truthy_string, Hne.
    - rewrite (url_or_global _ _ E1). exact E2. }
  assert (Hleg : legacyBranches h s = ([], Return (directive (JStr str)))).
  { unfold legacyBranches, shouldRedirectUnauthedUser.
    rewrite Hid, Hflag, Hu. simpl andb. cbv iota.
    apply redirectUnauthenticatedUser_string, Hne. }
  split.
  - rewrite Redirects_processRedirect_unfold. unfold legacyURLConfigured.
    rewrite Hu, (url_truthy_string str Hne). simpl. exact Hleg.
  - intros Hdecl. rewrite (SSR_processRedirect_legacy h s Hdecl). exact Hleg.
Qed.

Lemma login_redirect_prefers_call_site_url_witness :
  let h := Sample.host Probe.globalURLs Sample.emptyJar in
  SSR.processRedirect h (Sample.loginSettings JNull Sample.anonymous)
  = ([], Return (directive (JStr "/login")))
  /\ Redirects.processRedirect h (Sample.bareSettings JNull Sample.anonymous)
     = ([], Return (directive (JStr "/signin"))).
Proof.
  split.
  - refine (proj2 (login_redirect_prefers_call_site_url
                     (Sample.host Probe.globalURLs Sample.emptyJar)
                     (Sample.loginSettings JNull Sample.anonymous) "/login"
                     eq_refl eq_refl _ (or_introl eq_refl)) eq_refl).
    discriminate.
  - refine (proj1 (login_redirect_prefers_call_site_url
                     (Sample.host Probe.globalURLs Sample.emptyJar)
                     (Sample.bareSettings JNull Sample.anonymous) "/signin"
                     eq_refl eq_refl _ (or_intror (conj eq_refl eq_refl)))).
    discriminate.
Defined.

(** X4: an identified Session under whenAuthed = REDIRECT_TO_APP is sent
    to the app URL string, call-site appPageURL before the global
    default, in the same way. *)
Theorem app_redirect_prefers_call_site_url h s str :
  truthy (AuthUser.id (Settings.AuthUser s)) = true ->
  Settings.whenAuthed s = REDIRECT_TO_APP ->
  str <> "" ->
  Settings.appPageURL s = UrlVal (JStr str)
  \/ (url_truthy (Settings.appPageURL s) = false
      /\ Config.appPageURL (Host.getConfig h) = UrlVal (JStr str)) ->
  Redirects.processRedirect h s = ([], Return (directive (JStr str)))
  /\ (truthy (declarativeConfig h s) = false ->
      SSR.processRedirect h s = ([], Return (directive (JStr str)))).
Proof.
  intros Hid Hflag Hne Hurl.
  assert (Hu : authenticatedRedirectURL h s = UrlVal (JStr str)).
  { unfold authenticatedRedirectURL.
    destruct Hurl as [E | [E1 E2]].
    - rewrite E. apply url_or_call_site, url_truthy_string, Hne.
    - rewrite (url_or_global _ _ E1). exact E2. }
  assert (Hleg : legacyBranches h s = ([], Return (directive (JStr str)))).
  { unfold legacyBranches, shouldRedirectUnauthedUser, shouldRedirectAuthedUser.
    rewrite Hid, Hflag, Hu. simpl andb. cbv iota.
    apply redirectAuthenticatedUser_string, Hne. }
  split.
  - rewrite Redirects_processRedirect_unfold. unfold legacyURLConfigured.
    rewrite Hu, (url_truthy_string str Hne), orb_true_r. exact Hleg.
  - intros Hdecl. rewrite (SSR_processRedirect_legacy h s Hdecl). exact Hleg.
Qed.

Lemma app_redirect_prefers_call_site_url_witness :
  let h := Sample.host Probe.globalURLs Sample.emptyJar in
  SSR.processRedirect h
    (Probe.settings REDIRECT_TO_APP RENDER (UrlVal (JStr "/app"))
       (UrlVal JNull) JNull Sample.alice)
  = ([], Return (directive (JStr "/app")))
  /\ Redirects.processRedirect h (Sample.bareSettings JNull Sample.alice)
     = ([], Return (directive (JStr "/home"))).
Proof.
  split.
  - refine (proj2 (app_redirect_prefers_call_site_url
                     (Sample.host Probe.globalURLs Sample.emptyJar)
                     (Probe.settings REDIRECT_TO_APP RENDER
                        (UrlVal (JStr "/app")) (UrlVal JNull) JNull
                        Sample.alice) "/app"
                     eq_refl eq_refl _ (or_introl eq_refl)) eq_refl).
    discriminate.
  - refine (proj1 (app_redirect_prefers_call_site_url
                     (Sample.host Probe.globalURLs Sample.emptyJar)
                     (Sample.bareSettings JNull Sample.alice) "/home"
                     eq_refl eq_refl _ (or_intror (conj eq_refl eq_refl)))).
    discriminate.
Defined.

Lemma AuthAction_eqb_eq a b : AuthAction_eqb a b = true -> a = b.
Proof. destruct a, b; simpl; intros H; try discriminate H; reflexivity. Qed.

(** X5: the legacy strategy looks at one direction only.  For an
    anonymous Session its result is fixed by whenUnauthed and the call-site
    authPageURL; for an identified Session by whenAuthed and the call-site
    appPageURL.  The action and URL of the other direction, and the
    declarative configuration, change nothing. *)
Theorem legacy_strategy_reads_one_direction h s s' :
  Settings.AuthUser s = Settings.AuthUser s' ->
  Settings.ctx s = Settings.ctx s' ->
  (truthy (AuthUser.id (Settings.AuthUser s)) = false ->
   Settings.whenUnauthed s = Settings.whenUnauthed s' ->
   Settings.authPageURL s = Settings.authPageURL s' ->
   SSR.findLegacyRedirect h s = SSR.findLegacyRedirect h s')
  /\ (truthy (AuthUser.id (Settings.AuthUser s)) = true ->
      Settings.whenAuthed s = Settings.whenAuthed s' ->
      Settings.appPageURL s = Settings.appPageURL s' ->
      SSR.findLegacyRedirect h s = SSR.findLegacyRedirect h s').
Proof.
  intros Huser Hctx.
  unfold SSR.findLegacyRedirect, legacyBranches, shouldRedirectUnauthedUser,
    shouldRedirectAuthedUser, unauthenticatedRedirectURL,
    authenticatedRedirectURL.
  rewrite <- Huser, <- Hctx. split.
  - intros Hid Hflag Hurl. rewrite <- Hflag, <- Hurl, Hid. simpl.
    destruct (AuthAction_eqb (Settings.whenUnauthed s) REDIRECT_TO_LOGIN);
      reflexivity.
  - intros Hid Hflag Hurl. rewrite <- Hflag, <- Hurl, Hid. simpl.
    destruct (AuthAction_eqb (Settings.whenAuthed s) REDIRECT_TO_APP);
      reflexivity.
Qed.

Lemma legacy_strategy_reads_one_direction_witness :
  let h := Sample.host Sample.unset Sample.emptyJar in
  SSR.findLegacyRedirect h
    (Probe.settings REDIRECT_TO_APP REDIRECT_TO_LOGIN (UrlFn 7)
       (UrlVal (JStr "/login")) JNull Sample.anonymous)
  = SSR.findLegacyRedirect h
      (Probe.settings RENDER REDIRECT_TO_LOGIN (UrlVal JNull)
         (UrlVal (JStr "/login")) (JObj ∅) Sample.anonymous)
  /\ SSR.findLegacyRedirect h
       (Probe.settings REDIRECT_TO_APP REDIRECT_TO_LOGIN (UrlFn 1)
          (UrlFn 0) JNull Sample.alice)
     = SSR.findLegacyRedirect h
         (Probe.settings REDIRECT_TO_APP RENDER (UrlFn 1)
            (UrlVal JNull) JNull Sample.alice).
Proof.
  split.
  - exact (proj1 (legacy_strategy_reads_one_direction
                    (Sample.host Sample.unset Sample.emptyJar)
                    (Probe.settings REDIRECT_TO_APP REDIRECT_TO_LOGIN (UrlFn 7)
                       (UrlVal (JStr "/login")) JNull Sample.anonymous)
                    (Probe.settings RENDER REDIRECT_TO_LOGIN (UrlVal JNull)
                       (UrlVal (JStr "/login")) (JObj ∅) Sample.anonymous)
                    eq_refl eq_refl) eq_refl eq_refl eq_refl).
  - exact (proj2 (legacy_strategy_reads_one_direction
                    (Sample.host Sample.unset Sample.emptyJar)
                    (Probe.settings REDIRECT_TO_APP REDIRECT_TO_LOGIN (UrlFn 1)
                       (UrlFn 0) JNull Sample.alice)
                    (Probe.settings REDIRECT_TO_APP RENDER (UrlFn 1)
                       (UrlVal JNull) JNull Sample.alice)
                    eq_refl eq_refl) eq_refl eq_refl eq_refl).
Defined.

Lemma legacyBranches_render h s :
  Settings.whenAuthed s = RENDER -> Settings.whenUnauthed s = RENDER ->
  legacyBranches h s = ([], Return JNull).
Proof.
  intros Ha Hu.
  unfold legacyBranches, shouldRedirectUnauthedUser, shouldRedirectAuthedUser.
  rewrite Ha, Hu. simpl. rewrite !andb_false_r. reflexivity.
Qed.

(** X6: with both actions at RENDER, their default, the legacy strategy
    never redirects, never throws and calls no URL function, whatever URLs
    are configured.  The engine of [withAuthUserTokenSSR.js] then returns
    null when there is no declarative configuration; the exported engine
    returns null as soon as a legacy URL is configured, even when a
    declarative configuration holds a rule for the Session. *)
Theorem render_actions_never_redirect h s :
  Settings.whenAuthed s = RENDER ->
  Settings.whenUnauthed s = RENDER ->
  SSR.findLegacyRedirect h s = ([], Return JNull)
  /\ (truthy (declarativeConfig h s) = false ->
      SSR.processRedirect h s = ([], Return JNull))
  /\ (legacyURLConfigured h s = true ->
      Redirects.processRedirect h s = ([], Return JNull)).
Proof.
  intros Ha Hu. pose proof (legacyBranches_render h s Ha Hu) as Hleg.
  split; [exact Hleg | split].
  - intros Hdecl. rewrite (SSR_processRedirect_legacy h s Hdecl). exact Hleg.
  - intros Hurls. rewrite Redirects_processRedirect_unfold, Hurls. exact Hleg.
Qed.

Lemma render_actions_never_redirect_witness :
  let h := Sample.host Probe.globalURLs Sample.emptyJar in
  let s := Probe.settings RENDER RENDER (UrlFn 1) (UrlFn 0)
             (JObj {[ "unauthenticatedUser" := Sample.loginRule ]})
             Sample.anonymous in
  SSR.findLegacyRedirect h s = ([], Return JNull)
  /\ Redirects.processRedirect h s = ([], Return JNull)
  /\ SSR.processRedirect h
       (Probe.settings RENDER RENDER (UrlFn 1) (UrlFn 0) JNull Sample.alice)
     = ([], Return JNull).
Proof.
  pose proof (render_actions_never_redirect
                (Sample.host Probe.globalURLs Sample.emptyJar)
                (Probe.settings RENDER RENDER (UrlFn 1) (UrlFn 0)
                   (JObj {[ "unauthenticatedUser" := Sample.loginRule ]})
                   Sample.anonymous)
                eq_refl eq_refl) as (H1 & _ & H3).
  pose proof (render_actions_never_redirect
                (Sample.host Probe.globalURLs Sample.emptyJar)
                (Probe.settings RENDER RENDER (UrlFn 1) (UrlFn 0) JNull
                   Sample.alice)
                eq_refl eq_refl) as (_ & H2 & _).
  split; [exact H1 | split; [exact (H3 eq_refl) | exact (H2 eq_refl)]].
Defined.

(** X7: where the two engines coincide.  Without a declarative
    configuration they return the same as soon as a legacy URL is
    configured; with a call-site declarative object they return the same
    when no legacy URL is configured. *)
Theorem engines_agree h s :
  (truthy (declarativeConfig h s) = false ->
   legacyURLConfigured h s = true ->
   SSR.processRedirect h s = Redirects.processRedirect h s)
  /\ (forall m,
        Settings.redirectConfig s = JObj m ->
        legacyURLConfigured h s = false ->
        SSR.processRedirect h s = Redirects.processRedirect h s).
Proof.
  split.
  - intros Hdecl Hurls.
    rewrite (SSR_processRedirect_legacy h s Hdecl),
      Redirects_processRedirect_unfold, Hurls.
    reflexivity.
  - intros m Hcall Hurls.
    rewrite Redirects_processRedirect_unfold, Hurls.
    unfold SSR.processRedirect.
    rewrite (SSR_findRedirectRule_call_site h s m Hcall), bind_ret.
    simpl truthy. cbv iota. symmetry.
    apply Redirects_findRedirectRule_object.
    unfold declarativeConfig, js_or. rewrite Hcall. reflexivity.
Qed.

Lemma engines_agree_witness :
  let h := Sample.host Sample.unset Sample.emptyJar in
  SSR.processRedirect h (Sample.computedLoginSettings 1 Sample.anonymous)
  = Redirects.processRedirect h
      (Sample.computedLoginSettings 1 Sample.anonymous)
  /\ SSR.processRedirect h (Sample.bareSettings (JObj ∅) Sample.alice)
     = Redirects.processRedirect h (Sample.bareSettings (JObj ∅) Sample.alice).
Proof.
  split.
  - exact (proj1 (engines_agree (Sample.host Sample.unset Sample.emptyJar)
                    (Sample.computedLoginSettings 1 Sample.anonymous))
             eq_refl eq_refl).
  - exact (proj2 (engines_agree (Sample.host Sample.unset Sample.emptyJar)
                    (Sample.bareSettings (JObj ∅) Sample.alice))
             ∅ eq_refl eq_refl).
Defined.

(** X8: the exported [findRedirectRule] never throws and calls nothing.
    The one in [withAuthUserTokenSSR.js] throws exactly when the call-site
    redirectConfig is null or undefined while the global default holds a
    configuration; with a truthy call-site redirectConfig the two return
    the same. *)
Theorem findRedirectRule_throws_exactly_when h s :
  (exists v, Redirects.findRedirectRule h s = ([], Return v))
  /\ ((exists e, outcome (SSR.findRedirectRule h s) = Throw e)
      <-> (Settings.redirectConfig s = JNull
           \/ Settings.redirectConfig s = JUndefined)
          /\ truthy (Config.redirectConfig (Host.getConfig h)) = true)
  /\ (truthy (Settings.redirectConfig s) = true ->
      SSR.findRedirectRule h s = Redirects.findRedirectRule h s).
Proof.
  unfold Redirects.findRedirectRule, SSR.findRedirectRule, js_or.
  destruct (truthy (Settings.redirectConfig s)) eqn:Hcall.
  - (* call-site configuration *)
    split; [| split].
    + rewrite Hcall. simpl.
      destruct (Settings.redirectConfig s); try discriminate Hcall;
        destruct (truthy (AuthUser.id (Settings.AuthUser s))); simpl; eauto.
    + rewrite Hcall. simpl. split.
      * intros [e He].
        destruct (Settings.redirectConfig s); try discriminate Hcall;
          destruct (truthy (AuthUser.id (Settings.AuthUser s)));
          simpl in He; discriminate He.
      * intros [[E | E] _]; rewrite E in Hcall; discriminate Hcall.
    + reflexivity.
  - (* no call-site configuration *)
    destruct (truthy (Config.redirectConfig (Host.getConfig h))) eqn:Hglobal;
      simpl.
    + split; [| split].
      * destruct (Config.redirectConfig (Host.getConfig h));
          try discriminate Hglobal;
          destruct (truthy (AuthUser.id (Settings.AuthUser s))); simpl; eauto.
      * split.
        -- intros [e He]. split; [| reflexivity].
           destruct (Settings.redirectConfig s); auto;
             destruct (truthy (AuthUser.id (Settings.AuthUser s)));
             simpl in He; discriminate He.
        -- intros [[E | E] _]; rewrite E;
             destruct (truthy (AuthUser.id (Settings.AuthUser s)));
             simpl; eauto.
      * discriminate.
    + split; [eauto | split; [| discriminate]].
      split.
      * intros [e He]. discriminate He.
      * intros [_ H]. discriminate H.
Qed.

Lemma findRedirectRule_throws_exactly_when_witness :
  (exists e,
      outcome (SSR.findRedirectRule
                 (Sample.host Sample.globalDeclarative Sample.emptyJar)
                 (Sample.bareSettings JUndefined Sample.alice)) = Throw e)
  /\ SSR.findRedirectRule
       (Sample.host Sample.globalDeclarative Sample.emptyJar)
       (Sample.bareSettings (JObj ∅) Sample.alice)
     = Redirects.findRedirectRule
         (Sample.host Sample.globalDeclarative Sample.emptyJar)
         (Sample.bareSettings (JObj ∅) Sample.alice).
Proof.
  split.
  - exact (proj2 (proj1 (proj2 (findRedirectRule_throws_exactly_when
                                  (Sample.host Sample.globalDeclarative
                                     Sample.emptyJar)
                                  (Sample.bareSettings JUndefined
                                     Sample.alice))))
             (conj (or_intror eq_refl) eq_refl)).
  - exact (proj2 (proj2 (findRedirectRule_throws_exactly_when
                           (Sample.host Sample.globalDeclarative
                              Sample.emptyJar)
                           (Sample.bareSettings (JObj ∅) Sample.alice)))
             eq_refl).
Defined.

(** The calls a redirect helper makes: none, or one call of the URL
    function it was given. *)
Lemma redirectUnauthenticatedUser_trace h url ctx user :
  trace (redirectUnauthenticatedUser h url ctx user) = []
  \/ exists n, url = UrlFn n
               /\ trace (redirectUnauthenticatedUser h url ctx user)
                  = [CallURL n ctx user].
Proof.
  destruct url as [v | n].
  - left. unfold redirectUnauthenticatedUser. simpl.
    destruct (truthy v); [| reflexivity].
    destruct v; simpl; try reflexivity.
    destruct (negb (String.eqb s "")); reflexivity.
  - right. exists n. split; [reflexivity |].
    unfold redirectUnauthenticatedUser, resolveDestination, call, bind, emit,
      lift. simpl.
    destruct (Host.callFn h n ctx user) as [d | e]; [| reflexivity].
    destruct (truthy d); reflexivity.
Qed.

Lemma redirectAuthenticatedUser_trace h url ctx user :
  trace (redirectAuthenticatedUser h url ctx user) = []
  \/ exists n, url = UrlFn n
               /\ trace (redirectAuthenticatedUser h url ctx user)
                  = [CallURL n ctx user].
Proof.
  destruct url as [v | n].
  - left. unfold redirectAuthenticatedUser. simpl.
    destruct (truthy v); [| reflexivity].
    destruct v; simpl; try reflexivity.
    destruct (negb (String.eqb s "")); reflexivity.
  - right. exists n. split; [reflexivity |].
    unfold redirectAuthenticatedUser, resolveDestination, call, bind, emit,
      lift. simpl.
    destruct (Host.callFn h n ctx user) as [d | e]; [| reflexivity].
    destruct (truthy d); reflexivity.
Qed.

Lemma legacyBranches_trace h s :
  trace (legacyBranches h s) = []
  \/ exists n, ownDirectionFunction h s n
               /\ trace (legacyBranches h s)
                  = [CallURL n (Settings.ctx s) (Settings.AuthUser s)].
Proof.
  unfold legacyBranches, ownDirectionFunction, shouldRedirectUnauthedUser,
    shouldRedirectAuthedUser.
  destruct (truthy (AuthUser.id (Settings.AuthUser s))); simpl.
  - destruct (AuthAction_eqb (Settings.whenAuthed s) REDIRECT_TO_APP) eqn:E;
      [| left; reflexivity].
    apply AuthAction_eqb_eq in E.
    destruct (redirectAuthenticatedUser_trace h (authenticatedRedirectURL h s)
                (Settings.ctx s) (Settings.AuthUser s))
      as [H | (n & Hn & H)]; [left; exact H |].
    right. exists n. split; [right; auto | exact H].
  - destruct (AuthAction_eqb (Settings.whenUnauthed s) REDIRECT_TO_LOGIN) eqn:E;
      [| left; reflexivity].
    apply AuthAction_eqb_eq in E.
    destruct (redirectUnauthenticatedUser_trace h
                (unauthenticatedRedirectURL h s)
                (Settings.ctx s) (Settings.AuthUser s))
      as [H | (n & Hn & H)]; [left; exact H |].
    right. exists n. split; [left; auto | exact H].
Qed.

(** X9: either engine makes at most one call per request, and that call
    is of the URL function configured for the Session's own direction
    (authPageURL for an anonymous Session under REDIRECT_TO_LOGIN,
    appPageURL for an identified one under REDIRECT_TO_APP), with the
    request's context and AuthUser. *)
Theorem engine_calls_at_most_one_url_function h s :
  (trace (SSR.processRedirect h s) = []
   \/ exists n, ownDirectionFunction h s n
                /\ trace (SSR.processRedirect h s)
                   = [CallURL n (Settings.ctx s) (Settings.AuthUser s)])
  /\ (trace (Redirects.processRedirect h s) = []
      \/ exists n, ownDirectionFunction h s n
                   /\ trace (Redirects.processRedirect h s)
                      = [CallURL n (Settings.ctx s) (Settings.AuthUser s)]).
Proof.
  split.
  - unfold SSR.processRedirect.
    rewrite trace_bind, SSR_findRedirectRule_silent. simpl.
    destruct (outcome (SSR.findRedirectRule h s)) as [r | e];
      [| left; reflexivity].
    destruct (truthy r); [left; reflexivity |].
    apply legacyBranches_trace.
  - rewrite Redirects_processRedirect_unfold.
    destruct (legacyURLConfigured h s); [apply legacyBranches_trace |].
    left. unfold Redirects.findRedirectRule.
    destruct (truthy (js_or _ _)); simpl; [| reflexivity].
    rewrite trace_bind.
    destruct (truthy (AuthUser.id (Settings.AuthUser s)));
      rewrite member_silent; simpl;
      destruct (outcome (member _ _)); reflexivity.
Qed.

(** ** Further properties of the session resolver *)

(** X10: the resolver calls the verifier at most once, and only in token
    mode, on a present tokens cookie whose parsed value holds a truthy
    idToken; the call carries that idToken and the refreshToken read
    beside it, and its result is the resolver's. *)
Theorem verifier_called_only_for_truthy_idToken
    h useToken res req keys secure signed :
  trace (SSR.determineAuthUser h useToken res req keys secure signed) = []
  \/ exists parsed idToken refreshToken,
       truthy useToken = true
       /\ truthy (tokensCookie h res req keys secure signed) = true
       /\ Host.JSON_parse h (tokensCookie h res req keys secure signed)
          = Return parsed
       /\ member parsed "idToken" = ret idToken
       /\ member parsed "refreshToken" = ret refreshToken
       /\ truthy idToken = true
       /\ SSR.determineAuthUser h useToken res req keys secure signed
          = ([CallVerifyIdToken idToken refreshToken],
             Host.verifyIdToken h idToken refreshToken).
Proof.
  unfold SSR.determineAuthUser, tokensCookie.
  destruct (truthy useToken); [| left; reflexivity].
  destruct (truthy (Host.getCookie h _ _ _ _)) eqn:Hc;
    [| left; reflexivity].
  destruct (Host.JSON_parse h _) as [parsed | e] eqn:Hp;
    [| left; reflexivity].
  destruct parsed as [| | b | z | str | m]; try (left; reflexivity).
  destruct (truthy (default JUndefined (m !! "idToken"))) eqn:Hid.
  - right.
    exists (JObj m), (default JUndefined (m !! "idToken")),
      (default JUndefined (m !! "refreshToken")).
    repeat split; auto.
    simpl. rewrite Hid. reflexivity.
  - left. simpl. rewrite Hid. reflexivity.
Qed.

(** X11: in token mode, a tokens cookie that does not parse makes the
    resolver throw what JSON.parse throws; one that parses to null makes
    the destructuring throw a TypeError; one that parses to a boolean, a
    number or a string holds no idToken and yields the anonymous
    AuthUser.  The verifier is called in none of these cases. *)
Theorem malformed_tokens_cookie h useToken res req keys secure signed :
  truthy useToken = true ->
  truthy (tokensCookie h res req keys secure signed) = true ->
  (forall e,
      Host.JSON_parse h (tokensCookie h res req keys secure signed) = Throw e ->
      SSR.determineAuthUser h useToken res req keys secure signed
      = ([], Throw e))
  /\ (Host.JSON_parse h (tokensCookie h res req keys secure signed)
      = Return JNull ->
      SSR.determineAuthUser h useToken res req keys secure signed
      = ([], Throw (TypeError "cannot read properties")))
  /\ (forall v,
        Host.JSON_parse h (tokensCookie h res req keys secure signed)
        = Return v ->
        isPrimitive v = true ->
        SSR.determineAuthUser h useToken res req keys secure signed
        = ([], Return (Host.createAuthUser h JUndefined))).
Proof.
  unfold SSR.determineAuthUser, tokensCookie. intros -> ->.
  split; [| split].
  - intros e ->. reflexivity.
  - intros ->. reflexivity.
  - intros v -> Hv. destruct v; try discriminate Hv; reflexivity.
Qed.

Lemma malformed_tokens_cookie_witness :
  SSR.determineAuthUser
    (Probe.host Sample.unset (Sample.tokensJar "garbage"))
    (JBool true) (JStr "res") (JStr "req") JUndefined JUndefined JUndefined
  = ([], Throw SyntaxError)
  /\ SSR.determineAuthUser
       (Probe.host Sample.unset (Sample.tokensJar "null"))
       (JBool true) (JStr "res") (JStr "req") JUndefined JUndefined JUndefined
     = ([], Throw (TypeError "cannot read properties"))
  /\ SSR.determineAuthUser
       (Probe.host Sample.unset (Sample.tokensJar "42"))
       (JBool true) (JStr "res") (JStr "req") JUndefined JUndefined JUndefined
     = ([], Return Sample.anonymous).
Proof.
  split; [| split].
  - exact (proj1 (malformed_tokens_cookie
                    (Probe.host Sample.unset (Sample.tokensJar "garbage"))
                    (JBool true) (JStr "res") (JStr "req")
                    JUndefined JUndefined JUndefined eq_refl eq_refl)
             SyntaxError eq_refl).
  - exact (proj1 (proj2 (malformed_tokens_cookie
                           (Probe.host Sample.unset (Sample.tokensJar "null"))
                           (JBool true) (JStr "res") (JStr "req")
                           JUndefined JUndefined JUndefined eq_refl eq_refl))
             eq_refl).
  - exact (proj2 (proj2 (malformed_tokens_cookie
                           (Probe.host Sample.unset (Sample.tokensJar "42"))
                           (JBool true) (JStr "res") (JStr "req")
                           JUndefined JUndefined JUndefined eq_refl eq_refl))
             (JNum 42) eq_refl eq_refl).
Defined.

(** X12: the orchestrator's useToken option defaults to token mode only
    when it is left undefined.  Any falsy value given for it (false, null,
    0, the empty string) selects cookie mode, in which the resolver hands
    the AuthUser cookie, present or not, to createAuthUser: it reads no
    tokens, calls no verifier and never throws. *)
Theorem useToken_selects_the_mode h ctx :
  resolveSession h JUndefined ctx = resolveSession h (JBool true) ctx
  /\ (forall useToken,
        useToken <> JUndefined -> truthy useToken = false ->
        resolveSession h useToken ctx
        = ([], Return (Host.createAuthUser h
                         (JObj {[ "serializedAuthUser" :=
                                    userCookie h (Ctx.res ctx) (Ctx.req ctx)
                                      (Config.keys (Config.cookies (Host.getConfig h)))
                                      (Config.secure (Config.cookies (Host.getConfig h)))
                                      (Config.signed (Config.cookies (Host.getConfig h))) ]})))).
Proof.
  split; [reflexivity |].
  intros useToken Hdef Hfalsy.
  unfold resolveSession, SSR.determineAuthUser, userCookie.
  assert (E : SSR.defaultTo (JBool true) useToken = useToken)
    by (destruct useToken; try reflexivity; contradiction).
  rewrite E, Hfalsy. reflexivity.
Qed.

Lemma useToken_selects_the_mode_witness :
  resolveSession (Sample.host Sample.unset (Probe.userJar "SESSVAL"))
    JNull Sample.ctx
  = ([], Return Sample.alice)
  /\ resolveSession (Sample.host Sample.unset (Sample.tokensJar Sample.tokensText))
       (JBool false) Sample.ctx
     = ([], Return Sample.anonymous).
Proof.
  split.
  - refine (proj2 (useToken_selects_the_mode
                     (Sample.host Sample.unset (Probe.userJar "SESSVAL"))
                     Sample.ctx) JNull _ eq_refl).
    discriminate.
  - refine (proj2 (useToken_selects_the_mode
                     (Sample.host Sample.unset
                        (Sample.tokensJar Sample.tokensText))
                     Sample.ctx) (JBool false) _ eq_refl).
    discriminate.
Defined.

(** ** Further properties of the orchestrator *)

(** X13: errors pass through the orchestrator unchanged.  What the
    resolver throws is thrown before the engine runs; what the engine
    throws is thrown before the hook could be called; what the hook throws
    is the orchestrator's outcome. *)
Theorem orchestrator_propagates_errors h o useToken hook ctx :
  (forall t0 e,
      resolveSession h useToken ctx = (t0, Throw e) ->
      SSR.withAuthUserTokenSSR h o useToken hook ctx = (t0, Throw e))
  /\ (forall t0 user t1 e,
        resolveSession h useToken ctx = (t0, Return user) ->
        SSR.processRedirect h (SSR.settingsOf o ctx user) = (t1, Throw e) ->
        SSR.withAuthUserTokenSSR h o useToken hook ctx
        = ((t0 ++ t1)%list, Throw e)
        /\ hookCalled (t0 ++ t1) = false)
  /\ (forall user f e,
        reachesHook h o useToken ctx user ->
        hook = Some f ->
        f (ctxWith ctx user) = Throw e ->
        outcome (SSR.withAuthUserTokenSSR h o useToken hook ctx) = Throw e).
Proof.
  split; [| split].
  - intros t0 e Hres. rewrite orchestrator_run, Hres. reflexivity.
  - intros t0 user t1 e Hres Heng.
    rewrite orchestrator_run, Hres, Heng. split; [reflexivity |].
    pose proof (determineAuthUser_no_hook h
                  (SSR.defaultTo (JBool true) useToken)
                  (Ctx.res ctx) (Ctx.req ctx)
                  (Config.keys (Config.cookies (Host.getConfig h)))
                  (Config.secure (Config.cookies (Host.getConfig h)))
                  (Config.signed (Config.cookies (Host.getConfig h)))) as H0.
    change (SSR.determineAuthUser h _ _ _ _ _ _)
      with (resolveSession h useToken ctx) in H0.
    rewrite Hres in H0. simpl in H0.
    pose proof (SSR_processRedirect_no_hook h (SSR.settingsOf o ctx user)) as H1.
    rewrite Heng in H1. simpl in H1.
    rewrite hookCalled_app, H0, H1. reflexivity.
  - intros user f e Hreach -> Hhook.
    rewrite (orchestrator_outcome h o useToken (Some f) ctx user Hreach), Hhook.
    reflexivity.
Qed.

Lemma orchestrator_propagates_errors_witness :
  SSR.withAuthUserTokenSSR
    (Sample.host Sample.unset (Sample.tokensJar "garbage"))
    Sample.noOptions JUndefined
    (Some (Sample.constantHook JNull)) Sample.ctx
  = ([], Throw SyntaxError)
  /\ SSR.withAuthUserTokenSSR
       (Sample.host Sample.unset Sample.emptyJar)
       (SSR.mkOptions None (Some REDIRECT_TO_LOGIN)
          (UrlVal JUndefined) (UrlVal JUndefined) JUndefined)
       JUndefined (Some (Sample.constantHook JNull)) Sample.ctx
     = ([], Throw (Error AuthPageURLMustBeSet))
  /\ outcome (SSR.withAuthUserTokenSSR
                (Sample.host Sample.unset Sample.emptyJar)
                Sample.noOptions JUndefined (Some Probe.failingHook) Sample.ctx)
     = Throw (Rejected (JStr "boom")).
Proof.
  split; [| split].
  - exact (proj1 (orchestrator_propagates_errors
                    (Sample.host Sample.unset (Sample.tokensJar "garbage"))
                    Sample.noOptions JUndefined
                    (Some (Sample.constantHook JNull)) Sample.ctx)
             [] SyntaxError eq_refl).
  - exact (proj1 (proj1 (proj2 (orchestrator_propagates_errors
                                  (Sample.host Sample.unset Sample.emptyJar)
                                  (SSR.mkOptions None (Some REDIRECT_TO_LOGIN)
                                     (UrlVal JUndefined) (UrlVal JUndefined)
                                     JUndefined)
                                  JUndefined
                                  (Some (Sample.constantHook JNull))
                                  Sample.ctx))
                    [] Sample.anonymous [] (Error AuthPageURLMustBeSet)
                    eq_refl eq_refl)).
  - exact (proj2 (proj2 (orchestrator_propagates_errors
                           (Sample.host Sample.unset Sample.emptyJar)
                           Sample.noOptions JUndefined
                           (Some Probe.failingHook) Sample.ctx))
             Sample.anonymous Probe.failingHook (Rejected (JStr "boom"))
             (conj eq_refl eq_refl) eq_refl eq_refl).
Defined.

Lemma mergeComposedProps_non_object s r :
  isObject r = false ->
  SSR.mergeComposedProps s r = ([], Return (SSR.sessionProps s)).
Proof.
  intros Hr. unfold SSR.mergeComposedProps, js_or. cbv zeta.
  destruct (truthy r) eqn:E; [| reflexivity].
  destruct r as [| | b | z | str | m]; try discriminate Hr;
    try discriminate E; simpl in E; simpl; rewrite E; reflexivity.
Qed.

(** X14: a hook result that is not an object, be it null, false, 0, a
    string or any other primitive, is ignored: the orchestrator returns
    the minimal result [{ props: { AuthUserSerialized: s } }]. *)
Theorem non_object_hook_result_ignored h o useToken ctx user f r :
  reachesHook h o useToken ctx user ->
  f (ctxWith ctx user) = Return r ->
  isObject r = false ->
  outcome (SSR.withAuthUserTokenSSR h o useToken (Some f) ctx)
  = Return (JObj {[ "props" :=
                      JObj {[ "AuthUserSerialized" :=
                                AuthUser.serialize user ]} ]}).
Proof.
  intros Hreach Hhook Hr.
  rewrite (orchestrator_outcome h o useToken (Some f) ctx user Hreach), Hhook,
    (mergeComposedProps_non_object _ r Hr).
  reflexivity.
Qed.

Lemma non_object_hook_result_ignored_witness :
  outcome (SSR.withAuthUserTokenSSR
             (Sample.host Sample.unset Sample.emptyJar)
             Sample.noOptions JUndefined
             (Some (Sample.constantHook (JStr "done"))) Sample.ctx)
  = Return (JObj {[ "props" :=
                      JObj {[ "AuthUserSerialized" := JStr "ANON" ]} ]}).
Proof.
  exact (non_object_hook_result_ignored
           (Sample.host Sample.unset Sample.emptyJar)
           Sample.noOptions JUndefined Sample.ctx Sample.anonymous
           (Sample.constantHook (JStr "done")) (JStr "done")
           (conj eq_refl eq_refl) eq_refl eq_refl).
Defined.

(** X15: a hook result whose [props] is a truthy primitive (true, a
    non-zero number, a non-empty string) makes the orchestrator throw a
    TypeError: the assignment of [AuthUserSerialized] cannot create a
    property on it. *)
Theorem primitive_props_throw h o useToken ctx user f m p :
  reachesHook h o useToken ctx user ->
  f (ctxWith ctx user) = Return (JObj m) ->
  m !! "props" = Some p ->
  truthy p = true ->
  isObject p = false ->
  outcome (SSR.withAuthUserTokenSSR h o useToken (Some f) ctx)
  = Throw (TypeError "cannot create property").
Proof.
  intros Hreach Hhook Hprops Hp Hobj.
  rewrite (orchestrator_outcome h o useToken (Some f) ctx user Hreach), Hhook,
    mergeComposedProps_object.
  cbv zeta. rewrite Hprops. simpl default. rewrite Hp.
  destruct p; try discriminate Hp; try discriminate Hobj; reflexivity.
Qed.

Lemma primitive_props_throw_witness :
  outcome (SSR.withAuthUserTokenSSR
             (Sample.host Sample.unset Sample.emptyJar)
             Sample.noOptions JUndefined
             (Some (Sample.constantHook (JObj {[ "props" := JStr "abc" ]})))
             Sample.ctx)
  = Throw (TypeError "cannot create property").
Proof.
  exact (primitive_props_throw
           (Sample.host Sample.unset Sample.emptyJar)
           Sample.noOptions JUndefined Sample.ctx Sample.anonymous
           (Sample.constantHook (JObj {[ "props" := JStr "abc" ]}))
           {[ "props" := JStr "abc" ]} (JStr "abc")
           (conj eq_refl eq_refl) eq_refl eq_refl eq_refl eq_refl).
Defined.

(** X16: the merge tests values, not keys.  A hook result whose [props],
    [notFound] and [redirect] are all falsy, present or not (such as
    [{ notFound: false }] or [{ props: null }]), is dropped and the
    minimal result returned. *)
Theorem falsy_members_do_not_count h o useToken ctx user f m :
  reachesHook h o useToken ctx user ->
  f (ctxWith ctx user) = Return (JObj m) ->
  truthy (default JUndefined (m !! "props")) = false ->
  truthy (default JUndefined (m !! "notFound")) = false ->
  truthy (default JUndefined (m !! "redirect")) = false ->
  outcome (SSR.withAuthUserTokenSSR h o useToken (Some f) ctx)
  = Return (JObj {[ "props" :=
                      JObj {[ "AuthUserSerialized" :=
                                AuthUser.serialize user ]} ]}).
Proof.
  intros Hreach Hhook Hp Hn Hr.
  rewrite (orchestrator_outcome h o useToken (Some f) ctx user Hreach), Hhook,
    mergeComposedProps_object.
  cbv zeta. rewrite Hp, Hn, Hr. reflexivity.
Qed.

Lemma falsy_members_do_not_count_witness :
  outcome (SSR.withAuthUserTokenSSR
             (Sample.host Sample.unset Sample.emptyJar)
             Sample.noOptions JUndefined
             (Some (Sample.constantHook
                      (JObj (<[ "notFound" := JBool false ]>
                               {[ "props" := JNull ]}))))
             Sample.ctx)
  = Return (JObj {[ "props" :=
                      JObj {[ "AuthUserSerialized" := JStr "ANON" ]} ]}).
Proof.
  exact (falsy_members_do_not_count
           (Sample.host Sample.unset Sample.emptyJar)
           Sample.noOptions JUndefined Sample.ctx Sample.anonymous
           (Sample.constantHook
              (JObj (<[ "notFound" := JBool false ]> {[ "props" := JNull ]})))
           (<[ "notFound" := JBool false ]> {[ "props" := JNull ]})
           (conj eq_refl eq_refl) eq_refl eq_refl eq_refl eq_refl).
Defined.

(** X17: whatever the hook answers, a result the orchestrator returns
    past the redirect engine either holds the serialized Session under
    [props.AuthUserSerialized], or is the hook's own object, unchanged,
    with a truthy [notFound] or [redirect] and no truthy [props]. *)
Theorem returned_result_carries_session_or_routing
    h o useToken hook ctx user v :
  reachesHook h o useToken ctx user ->
  outcome (SSR.withAuthUserTokenSSR h o useToken hook ctx) = Return v ->
  (exists (m p : gmap string JsVal),
      v = JObj m /\ m !! "props" = Some (JObj p)
      /\ p !! "AuthUserSerialized" = Some (AuthUser.serialize user))
  \/ (exists f (m : gmap string JsVal),
         hook = Some f /\ f (ctxWith ctx user) = Return (JObj m)
         /\ v = JObj m
         /\ truthy (default JUndefined (m !! "props")) = false
         /\ truthy (default JUndefined (m !! "notFound"))
            || truthy (default JUndefined (m !! "redirect")) = true).
Proof.
  intros Hreach.
  rewrite (orchestrator_outcome h o useToken hook ctx user Hreach).
  assert (Hmin : forall x,
             Return (SSR.sessionProps (AuthUser.serialize user)) = Return x ->
             exists (m p : gmap string JsVal),
               x = JObj m /\ m !! "props" = Some (JObj p)
               /\ p !! "AuthUserSerialized" = Some (AuthUser.serialize user)).
  { intros x Hx. injection Hx as <-.
    exists {[ "props" := JObj {[ "AuthUserSerialized" := AuthUser.serialize user ]} ]},
      {[ "AuthUserSerialized" := AuthUser.serialize user ]}.
    split; [reflexivity | split; apply lookup_singleton_eq]. }
  destruct hook as [f |]; [| intros H; left; exact (Hmin v H)].
  destruct (f (ctxWith ctx user)) as [r | e] eqn:Hhook; [| discriminate].
  destruct (isObject r) eqn:Hobj.
  - destruct r as [| | | | | m]; try discriminate Hobj.
    rewrite mergeComposedProps_object. cbv zeta.
    destruct (truthy (default JUndefined (m !! "props"))) eqn:Hp.
    + destruct (m !! "props") as [p |] eqn:Hprops; [| discriminate Hp].
      simpl default in *.
      destruct p as [| | | | | q]; try discriminate Hp;
        try (simpl; discriminate).
      simpl. intros H. injection H as <-. left.
      exists (<[ "props" := JObj (<[ "AuthUserSerialized" :=
                                       AuthUser.serialize user ]> q) ]> m),
        (<[ "AuthUserSerialized" := AuthUser.serialize user ]> q).
      split; [reflexivity | split; apply lookup_insert_eq].
    + destruct (truthy (default JUndefined (m !! "notFound"))
                || truthy (default JUndefined (m !! "redirect"))) eqn:Hroute.
      * simpl. intros H. injection H as <-. right.
        exists f, m. auto.
      * intros H. left. exact (Hmin v H).
  - rewrite (mergeComposedProps_non_object _ r Hobj). simpl.
    intros H. left. exact (Hmin v H).
Qed.

Lemma returned_result_carries_session_or_routing_witness :
  (exists (m p : gmap string JsVal),
      JObj {[ "props" := JObj {[ "AuthUserSerialized" := JStr "ANON" ]} ]}
      = JObj m
      /\ m !! "props" = Some (JObj p)
      /\ p !! "AuthUserSerialized" = Some (JStr "ANON"))
  \/ (exists f (m : gmap string JsVal),
         Some (Sample.constantHook (JObj {[ "foo" := JNum 1 ]})) = Some f
         /\ f (ctxWith Sample.ctx Sample.anonymous) = Return (JObj m)
         /\ JObj {[ "props" := JObj {[ "AuthUserSerialized" := JStr "ANON" ]} ]}
            = JObj m
         /\ truthy (default JUndefined (m !! "props")) = false
         /\ truthy (default JUndefined (m !! "notFound"))
            || truthy (default JUndefined (m !! "redirect")) = true).
Proof.
  exact (returned_result_carries_session_or_routing
           (Sample.host Sample.unset Sample.emptyJar)
           Sample.noOptions JUndefined
           (Some (Sample.constantHook (JObj {[ "foo" := JNum 1 ]})))
           Sample.ctx Sample.anonymous
           (JObj {[ "props" := JObj {[ "AuthUserSerialized" := JStr "ANON" ]} ]})
           (conj eq_refl eq_refl) eq_refl).
Defined.

Lemma no_hook_no_calls t : hookCalled t = false -> List.filter is_CallHook t = [].
Proof.
  unfold hookCalled. induction t as [| ev t IH]; simpl; [reflexivity |].
  destruct (is_CallHook ev); simpl; [discriminate | exact IH].
Qed.

Lemma no_hook_not_in t c : hookCalled t = false -> ~ In (CallHook c) t.
Proof.
  unfold hookCalled. induction t as [| ev t IH]; simpl; [tauto |].
  intros H [E | Hin].
  - subst ev. discriminate H.
  - destruct (is_CallHook ev); [discriminate H | exact (IH H Hin)].
Qed.

(** X18: in any run the page's hook is called at most once; when it is,
    the resolver has returned an AuthUser, the hook's context is the
    request's context with that AuthUser attached ([req] and [res] as they
    came), and the call is the last one the run makes. *)
Theorem hook_called_at_most_once_and_last h o useToken hook ctx :
  hookCalls (trace (SSR.withAuthUserTokenSSR h o useToken hook ctx)) <= 1
  /\ (forall c,
        In (CallHook c) (trace (SSR.withAuthUserTokenSSR h o useToken hook ctx)) ->
        exists user t,
          outcome (resolveSession h useToken ctx) = Return user
          /\ c = Ctx.mk (Ctx.req ctx) (Ctx.res ctx) (Some user)
          /\ trace (SSR.withAuthUserTokenSSR h o useToken hook ctx)
             = (t ++ [CallHook c])%list).
Proof.
  pose proof (determineAuthUser_no_hook h (SSR.defaultTo (JBool true) useToken)
                (Ctx.res ctx) (Ctx.req ctx)
                (Config.keys (Config.cookies (Host.getConfig h)))
                (Config.secure (Config.cookies (Host.getConfig h)))
                (Config.signed (Config.cookies (Host.getConfig h)))) as H0.
  change (SSR.determineAuthUser h _ _ _ _ _ _)
    with (resolveSession h useToken ctx) in H0.
  rewrite orchestrator_run. unfold hookCalls.
  destruct (resolveSession h useToken ctx) as [t0 [user | e]]; simpl in H0.
  2:{ simpl. rewrite (no_hook_no_calls t0 H0). split; [simpl; lia |].
      intros c Hin. exfalso. exact (no_hook_not_in t0 c H0 Hin). }
  pose proof (SSR_processRedirect_no_hook h (SSR.settingsOf o ctx user)) as H1.
  destruct (SSR.processRedirect h (SSR.settingsOf o ctx user))
    as [t1 [v | e]]; simpl in H1.
  2:{ simpl. assert (H01 : hookCalled (t0 ++ t1) = false)
        by (rewrite hookCalled_app, H0, H1; reflexivity).
      rewrite (no_hook_no_calls _ H01). split; [simpl; lia |].
      intros c Hin. exfalso. exact (no_hook_not_in _ c H01 Hin). }
  assert (H01 : hookCalled (t0 ++ t1) = false)
    by (rewrite hookCalled_app, H0, H1; reflexivity).
  destruct (truthy v).
  - simpl. rewrite (no_hook_no_calls _ H01). split; [simpl; lia |].
    intros c Hin. exfalso. exact (no_hook_not_in _ c H01 Hin).
  - destruct hook as [f |]; simpl.
    + rewrite app_assoc, List.filter_app, (no_hook_no_calls _ H01).
      split; [simpl; lia |].
      intros c Hin. apply in_app_or in Hin. destruct Hin as [Hin | Hin].
      * exfalso. exact (no_hook_not_in _ c H01 Hin).
      * simpl in Hin. destruct Hin as [E | []]. injection E as <-.
        exists user, (t0 ++ t1)%list. auto.
    + rewrite (no_hook_no_calls _ H01). split; [simpl; lia |].
      intros c Hin. exfalso. exact (no_hook_not_in _ c H01 Hin).
Qed.

Lemma hook_called_at_most_once_and_last_witness :
  hookCalls (trace (SSR.withAuthUserTokenSSR
                      (Sample.host Sample.unset
                         (Sample.tokensJar Sample.tokensText))
                      Sample.noOptions JUndefined
                      (Some (Sample.constantHook JNull)) Sample.ctx)) <= 1
  /\ exists user t,
       outcome (resolveSession
                  (Sample.host Sample.unset
                     (Sample.tokensJar Sample.tokensText))
                  JUndefined Sample.ctx) = Return user
       /\ Ctx.mk (JStr "req") (JStr "res") (Some Sample.alice)
          = Ctx.mk (Ctx.req Sample.ctx) (Ctx.res Sample.ctx) (Some user)
       /\ trace (SSR.withAuthUserTokenSSR
                   (Sample.host Sample.unset
                      (Sample.tokensJar Sample.tokensText))
                   Sample.noOptions JUndefined
                   (Some (Sample.constantHook JNull)) Sample.ctx)
          = (t ++ [CallHook (Ctx.mk (JStr "req") (JStr "res")
                               (Some Sample.alice))])%list.
Proof.
  pose proof (hook_called_at_most_once_and_last
                (Sample.host Sample.unset (Sample.tokensJar Sample.tokensText))
                Sample.noOptions JUndefined
                (Some (Sample.constantHook JNull)) Sample.ctx) as [H1 H2].
  split; [exact H1 |].
  apply (H2 (Ctx.mk (JStr "req") (JStr "res") (Some Sample.alice))).
  right. left. reflexivity.
Defined.

(** X19: in the exported engine a missing URL is an error only if the
    other direction has one.  For an anonymous Session under
    REDIRECT_TO_LOGIN with no authPageURL anywhere, a configured
    appPageURL makes the engine throw the configuration error, even with a
    declarative configuration present; with no appPageURL either, the
    engine answers from the declarative configuration instead (a rule
    object, or null when there is none).  The same holds with the
    directions exchanged. *)
Theorem exported_engine_missing_url h s :
  (truthy (AuthUser.id (Settings.AuthUser s)) = false ->
   Settings.whenUnauthed s = REDIRECT_TO_LOGIN ->
   url_truthy (unauthenticatedRedirectURL h s) = false ->
   Redirects.processRedirect h s
   = if url_truthy (authenticatedRedirectURL h s)
     then ([], Throw (Error AuthPageURLMustBeSet))
     else Redirects.findRedirectRule h s)
  /\ (truthy (AuthUser.id (Settings.AuthUser s)) = true ->
      Settings.whenAuthed s = REDIRECT_TO_APP ->
      url_truthy (authenticatedRedirectURL h s) = false ->
      Redirects.processRedirect h s
      = if url_truthy (unauthenticatedRedirectURL h s)
        then ([], Throw (Error AppPageURLMustBeSet))
        else Redirects.findRedirectRule h s).
Proof.
  split.
  - intros Hid Hflag Hu.
    rewrite Redirects_processRedirect_unfold. unfold legacyURLConfigured.
    rewrite Hu. simpl orb.
    destruct (url_truthy (authenticatedRedirectURL h s)); [| reflexivity].
    unfold legacyBranches, shouldRedirectUnauthedUser.
    rewrite Hid, Hflag. simpl andb. cbv iota.
    apply redirectUnauthenticatedUser_unset, Hu.
  - intros Hid Hflag Ha.
    rewrite Redirects_processRedirect_unfold. unfold legacyURLConfigured.
    rewrite Ha, orb_false_r.
    destruct (url_truthy (unauthenticatedRedirectURL h s)); [| reflexivity].
    unfold legacyBranches, shouldRedirectUnauthedUser, shouldRedirectAuthedUser.
    rewrite Hid, Hflag. simpl andb. cbv iota.
    apply redirectAuthenticatedUser_unset, Ha.
Qed.

Lemma exported_engine_missing_url_witness :
  let h := Sample.host Sample.unset Sample.emptyJar in
  let config := JObj {[ "unauthenticatedUser" := Sample.loginRule ]} in
  Redirects.processRedirect h
    (Probe.settings RENDER REDIRECT_TO_LOGIN (UrlVal (JStr "/app"))
       (UrlVal JNull) config Sample.anonymous)
  = ([], Throw (Error AuthPageURLMustBeSet))
  /\ Redirects.processRedirect h
       (Probe.settings RENDER REDIRECT_TO_LOGIN (UrlVal JNull)
          (UrlVal JNull) config Sample.anonymous)
     = ([], Return (redirectObject Sample.loginRule))
  /\ Redirects.processRedirect h
       (Probe.settings REDIRECT_TO_APP RENDER (UrlVal JNull)
          (UrlVal (JStr "/login")) JNull Sample.alice)
     = ([], Throw (Error AppPageURLMustBeSet)).
Proof.
  split; [| split].
  - exact (proj1 (exported_engine_missing_url
                    (Sample.host Sample.unset Sample.emptyJar)
                    (Probe.settings RENDER REDIRECT_TO_LOGIN
                       (UrlVal (JStr "/app")) (UrlVal JNull)
                       (JObj {[ "unauthenticatedUser" := Sample.loginRule ]})
                       Sample.anonymous))
             eq_refl eq_refl eq_refl).
  - exact (proj1 (exported_engine_missing_url
                    (Sample.host Sample.unset Sample.emptyJar)
                    (Probe.settings RENDER REDIRECT_TO_LOGIN
                       (UrlVal JNull) (UrlVal JNull)
                       (JObj {[ "unauthenticatedUser" := Sample.loginRule ]})
                       Sample.anonymous))
             eq_refl eq_refl eq_refl).
  - exact (proj2 (exported_engine_missing_url
                    (Sample.host Sample.unset Sample.emptyJar)
                    (Probe.settings REDIRECT_TO_APP RENDER
                       (UrlVal JNull) (UrlVal (JStr "/login")) JNull
                       Sample.alice))
             eq_refl eq_refl eq_refl).
Defined.
